(** * Anomaly detection over a ledger of blocks

    A shallow embedding of [anomaly.py] (with the two dataclasses of
    [models.py] it reads) and the properties of its streaming z-score
    detector and its rule-based checker.

    Python's [float] is IEEE 754 binary64.  It is modelled by [spec_float]
    at precision 53 and maximal exponent 1024, whose operations are plain
    functions and therefore evaluate.  The two functions of Python's
    [statistics] module that the detector calls are modelled after their
    CPython 3.11 sources: exact rational accumulation, then one correctly
    rounded conversion. *)

From Stdlib Require Import ZArith QArith Qreduction List Sorted String Bool Lia.
From Stdlib Require Import SpecFloat.
Import ListNotations.

Local Open Scope Z_scope.

(** ** Binary64 floating point *)

Module Float.

Definition prec : Z := 53.
Definition emax : Z := 1024.

Definition float : Type := spec_float.

Definition add : float -> float -> float := SFadd prec emax.
Definition sub : float -> float -> float := SFsub prec emax.
Definition ieee_div : float -> float -> float := SFdiv prec emax.
Definition abs : float -> float := SFabs.
Definition eqb : float -> float -> bool := SFeqb.
Definition ltb : float -> float -> bool := SFltb.
Definition leb : float -> float -> bool := SFleb.

(** Python's [x > y] on floats. *)
Definition gtb (x y : float) : bool := ltb y x.

Definition zero : float := S754_zero false.

(** [float(n)] for an integer [n], rounded to nearest even. *)
Definition of_Z (n : Z) : float := binary_normalize prec emax n 0 false.

Definition of_nat (n : nat) : float := of_Z (Z.of_nat n).

(** [math.isfinite]. *)
Definition is_finite (x : float) : bool :=
  match x with
  | S754_zero _ | S754_finite _ _ _ => true
  | S754_infinity _ | S754_nan => false
  end.

(** [float.as_integer_ratio] on a finite value, as an exact rational. *)
Definition to_Q (x : float) : Q :=
  match x with
  | S754_finite s m e =>
      let n := if s then Zneg m else Zpos m in
      match e with
      | Z0 => n # 1
      | Zpos p => (n * 2 ^ e) # 1
      | Zneg p => n # (2 ^ p)%positive
      end
  | _ => 0 # 1
  end.

(** True division [n / d] of two Python integers, [d > 0]: the quotient
    rounded once to nearest even; [None] stands for the [OverflowError]
    raised when the quotient is too large for a float. *)
Definition int_truediv (n : Z) (d : positive) : option float :=
  match n with
  | Z0 => Some zero
  | Zpos m =>
      let r := ieee_div (S754_finite false m 0) (S754_finite false d 0) in
      if is_finite r then Some r else None
  | Zneg m =>
      let r := ieee_div (S754_finite true m 0) (S754_finite false d 0) in
      if is_finite r then Some r else None
  end.

(** [float(q)] for a [Fraction] [q]. *)
Definition of_Q (q : Q) : option float :=
  let r := Qred q in int_truediv (Qnum r) (Qden r).

(** A decimal literal with [k] digits after the point, [n / 10^k]. *)
Definition decimal (n : Z) (k : nat) : float :=
  match int_truediv n (Pos.pow 10 (Pos.of_nat k)) with
  | Some x => x
  | None => S754_nan
  end.

End Float.

(** ** Exceptions

    The Python exceptions that the modelled code and the library functions
    it calls can raise. *)

Inductive exn : Type :=
| StatisticsError
| OverflowError
| AttributeError
| ZeroDivisionError
| TypeError.

(** A computation that returns a value or raises. *)
Definition result (A : Type) : Type := (exn + A)%type.

Definition Ok {A : Type} (a : A) : result A := inr a.
Definition Raise {A : Type} (e : exn) : result A := inl e.

(** Python's [x / y] on floats: [ZeroDivisionError] on a zero divisor,
    the IEEE quotient otherwise. *)
Definition py_div (x y : Float.float) : result Float.float :=
  if Float.eqb y Float.zero then Raise ZeroDivisionError
  else Ok (Float.ieee_div x y).

(** ** The [statistics] module (CPython 3.11), on lists of floats *)

Module Statistics.

Local Open Scope Q_scope.

(** [_sum] / [_ss] on finite data: the sum of the exact ratios. *)
Definition exact_sum (data : list Float.float) : Q :=
  fold_left (fun acc x => Qred (acc + Float.to_Q x)) data (0 # 1).

Definition exact_sum_sq (data : list Float.float) : Q :=
  fold_left (fun acc x => Qred (acc + Float.to_Q x * Float.to_Q x)) data (0 # 1).

(** With an infinity or a NaN in the data, [_sum] keeps only the float
    sum of the non-finite entries. *)
Definition special_sum (data : list Float.float) : Float.float :=
  fold_left Float.add (filter (fun x => negb (Float.is_finite x)) data)
            Float.zero.

(** [statistics.mean]. *)
Definition mean (data : list Float.float) : result Float.float :=
  match data with
  | [] => Raise StatisticsError
  | _ :: _ =>
      let n := Z.of_nat (List.length data) in
      if forallb Float.is_finite data then
        match Float.of_Q (exact_sum data / inject_Z n) with
        | Some m => Ok m
        | None => Raise OverflowError
        end
      else Ok (Float.ieee_div (special_sum data) (Float.of_Z n))
  end.

(** [int.bit_length] on a non-negative integer. *)
Definition bit_length (n : Z) : Z :=
  if (n =? 0)%Z then 0%Z else (Z.log2 n + 1)%Z.

(** [_integer_sqrt_of_frac_rto]: the square root of [n/m] as an integer,
    rounded to odd. *)
Definition _integer_sqrt_of_frac_rto (n m : Z) : Z :=
  let a := Z.sqrt (n / m)%Z in
  Z.lor a (if (a * a * m =? n)%Z then 0 else 1)%Z.

Definition _sqrt_bit_width : Z := (2 * Float.prec + 3)%Z.

(** [_float_sqrt_of_frac]: the square root of [n/m], correctly rounded. *)
Definition _float_sqrt_of_frac (n m : Z) : result Float.float :=
  let q := ((bit_length n - bit_length m - _sqrt_bit_width) / 2)%Z in
  let '(numerator, denominator) :=
    if (0 <=? q)%Z
    then (Z.shiftl (_integer_sqrt_of_frac_rto n (Z.shiftl m (2 * q))) q, 1%Z)
    else (_integer_sqrt_of_frac_rto (Z.shiftl n (- 2 * q)) m, Z.shiftl 1 (- q))
  in
  match Float.int_truediv numerator (Z.to_pos denominator) with
  | Some r => Ok r
  | None => Raise OverflowError
  end.

(** [statistics.stdev]: the square root of the sample variance, the sum
    of squared deviations over [n - 1]. *)
Definition stdev (data : list Float.float) : result Float.float :=
  let n := Z.of_nat (List.length data) in
  if (n <? 2)%Z then Raise StatisticsError
  else if forallb Float.is_finite data then
    let sx := exact_sum data in
    let sxx := exact_sum_sq data in
    let ssd := (inject_Z n * sxx - sx * sx) / inject_Z n in
    let mss := Qred (ssd / inject_Z (n - 1)) in
    _float_sqrt_of_frac (Qnum mss) (Zpos (Qden mss))
  else Raise AttributeError.

End Statistics.

(** ** The data model of [models.py] *)

Record Transaction : Type := {
  sender : string;
  receiver : string;
  amount : Float.float
}.

(** [hash] is set once by [__post_init__]; the detector reads only
    [timestamp] and [transactions]. *)
Record Block : Type := {
  index : Z;
  timestamp : Float.float;
  transactions : list Transaction;
  previous_hash : string;
  nonce : Z;
  hash : string
}.

(** ** Feature vectors

    The dict with the four keys ["num_txs"], ["total_amount"],
    ["max_amount"] and ["time_delta"], typed [Dict[str, float]] in the
    source.  [num_txs] is a [len] and so a Python int; it is held as the
    float of the same value, which is what the comparisons and the
    arithmetic of the detector make of it. *)

Module Feature.

Inductive t : Type := num_txs | total_amount | max_amount | time_delta.

Definition name (k : t) : string :=
  match k with
  | num_txs => "num_txs"
  | total_amount => "total_amount"
  | max_amount => "max_amount"
  | time_delta => "time_delta"
  end.

(** The list the scoring loop of [process_block] iterates over. *)
Definition all : list t := [num_txs; total_amount; max_amount; time_delta].

End Feature.

Module Features.

Record t : Type := {
  num_txs : Float.float;
  total_amount : Float.float;
  max_amount : Float.float;
  time_delta : Float.float
}.

(** [features[feat_name]]. *)
Definition get (f : t) (k : Feature.t) : Float.float :=
  match k with
  | Feature.num_txs => num_txs f
  | Feature.total_amount => total_amount f
  | Feature.max_amount => max_amount f
  | Feature.time_delta => time_delta f
  end.

End Features.

(** ** Baseline statistics

    [self.stats]: per feature a mean and a standard deviation, [None]
    until the baseline is computed. *)

Module Stats.

Record entry : Type := { mean : option Float.float; std : option Float.float }.

Record t : Type := {
  num_txs : entry;
  total_amount : entry;
  max_amount : entry;
  time_delta : entry
}.

Definition undefined : entry := {| mean := None; std := None |}.

Definition empty : t :=
  {| num_txs := undefined; total_amount := undefined;
     max_amount := undefined; time_delta := undefined |}.

Definition get (s : t) (k : Feature.t) : entry :=
  match k with
  | Feature.num_txs => num_txs s
  | Feature.total_amount => total_amount s
  | Feature.max_amount => max_amount s
  | Feature.time_delta => time_delta s
  end.

Definition set (s : t) (k : Feature.t) (e : entry) : t :=
  match k with
  | Feature.num_txs =>
      {| num_txs := e; total_amount := total_amount s;
         max_amount := max_amount s; time_delta := time_delta s |}
  | Feature.total_amount =>
      {| num_txs := num_txs s; total_amount := e;
         max_amount := max_amount s; time_delta := time_delta s |}
  | Feature.max_amount =>
      {| num_txs := num_txs s; total_amount := total_amount s;
         max_amount := e; time_delta := time_delta s |}
  | Feature.time_delta =>
      {| num_txs := num_txs s; total_amount := total_amount s;
         max_amount := max_amount s; time_delta := e |}
  end.

End Stats.

(** ** Decisions of the statistical detector *)

(** The [reason] string.  The three fixed texts are kept as they are; the
    f-string
    [f"Anomalous features: {', '.join(anomalies)} (z-score threshold = {self.z_threshold})"]
    is kept by its two holes. *)
Inductive Reason : Type :=
| Text (s : string)
| AnomalousFeatures (anomalies : list string) (z_threshold : Float.float).

Module Decision.

Record t : Type := {
  block_index : Z;
  is_anomaly : bool;
  feature_z_scores : list (string * Float.float);
  reason : Reason
}.

Definition set_reason (d : t) (r : Reason) : t :=
  {| block_index := block_index d; is_anomaly := is_anomaly d;
     feature_z_scores := feature_z_scores d; reason := r |}.

Definition set_feature_z_scores (d : t) (z : list (string * Float.float)) : t :=
  {| block_index := block_index d; is_anomaly := is_anomaly d;
     feature_z_scores := z; reason := reason d |}.

Definition set_is_anomaly (d : t) (b : bool) : t :=
  {| block_index := block_index d; is_anomaly := b;
     feature_z_scores := feature_z_scores d; reason := reason d |}.

End Decision.

(** ** The statistical detector *)

Module AnomalyDetector.

Record t : Type := {
  baseline_size : Z;
  z_threshold : Float.float;
  num_txs_history : list Float.float;
  total_amount_history : list Float.float;
  max_amount_history : list Float.float;
  time_delta_history : list Float.float;
  baseline_ready : bool;
  stats : Stats.t
}.

(** *** Methods run in a state monad over the detector that can raise.
    A raised exception keeps the mutations made before it, as in Python. *)

Definition M (A : Type) : Type := t -> result A * t.

Definition ret {A : Type} (a : A) : M A := fun self => (Ok a, self).

Definition bind {A B : Type} (m : M A) (k : A -> M B) : M B :=
  fun self =>
    match m self with
    | (inr a, self') => k a self'
    | (inl e, self') => (inl e, self')
    end.

Definition get : M t := fun self => (Ok self, self).

Definition modify (f : t -> t) : M unit := fun self => (Ok tt, f self).

Definition lift {A : Type} (r : result A) : M A := fun self => (r, self).

Notation "x <- c1 ;; c2" := (bind c1 (fun x => c2))
  (at level 61, c1 at next level, right associativity).
Notation "' pat <- c1 ;; c2" := (bind c1 (fun x => match x with pat => c2 end))
  (at level 61, pat pattern, c1 at next level, right associativity).
Notation "c1 ;; c2" := (bind c1 (fun _ => c2))
  (at level 61, right associativity).

(** *** Attribute updates *)

Definition set_histories (self : t) (a b c d : list Float.float) : t :=
  {| baseline_size := baseline_size self; z_threshold := z_threshold self;
     num_txs_history := a; total_amount_history := b;
     max_amount_history := c; time_delta_history := d;
     baseline_ready := baseline_ready self; stats := stats self |}.

Definition set_stats (self : t) (s : Stats.t) : t :=
  {| baseline_size := baseline_size self; z_threshold := z_threshold self;
     num_txs_history := num_txs_history self;
     total_amount_history := total_amount_history self;
     max_amount_history := max_amount_history self;
     time_delta_history := time_delta_history self;
     baseline_ready := baseline_ready self; stats := s |}.

Definition set_baseline_ready (self : t) (b : bool) : t :=
  {| baseline_size := baseline_size self; z_threshold := z_threshold self;
     num_txs_history := num_txs_history self;
     total_amount_history := total_amount_history self;
     max_amount_history := max_amount_history self;
     time_delta_history := time_delta_history self;
     baseline_ready := b; stats := stats self |}.

(** [self.<name>_history]. *)
Definition history (self : t) (k : Feature.t) : list Float.float :=
  match k with
  | Feature.num_txs => num_txs_history self
  | Feature.total_amount => total_amount_history self
  | Feature.max_amount => max_amount_history self
  | Feature.time_delta => time_delta_history self
  end.

(** *** [__init__] *)

Definition default_baseline_size : Z := 10.
Definition default_z_threshold : Float.float := Float.of_Z 3.

Definition init (baseline_size : Z) (z_threshold : Float.float) : t :=
  {| baseline_size := baseline_size; z_threshold := z_threshold;
     num_txs_history := []; total_amount_history := [];
     max_amount_history := []; time_delta_history := [];
     baseline_ready := false; stats := Stats.empty |}.

(** *** [_update_history] *)

Definition _update_history (num_txs total_amount max_amount time_delta : Float.float)
  : M unit :=
  modify (fun self =>
    set_histories self
      (num_txs_history self ++ [num_txs])
      (total_amount_history self ++ [total_amount])
      (max_amount_history self ++ [max_amount])
      (time_delta_history self ++ [time_delta])).

(** *** [_compute_baseline] *)

(** The local function [mean_std]. *)
Definition mean_std (lst : list Float.float) : result (Float.float * Float.float) :=
  match Statistics.mean lst with
  | inl e => Raise e
  | inr m =>
      match (if (1 <? Z.of_nat (List.length lst))
             then Statistics.stdev lst else Ok Float.zero) with
      | inl e => Raise e
      | inr s => Ok (m, s)
      end
  end.

(** One [m, s = mean_std(...)] followed by the assignment of both entries
    of [self.stats[k]]. *)
Definition baseline_of (k : Feature.t) : M unit :=
  self <- get ;;
  ' (m, s) <- lift (mean_std (history self k)) ;;
  modify (fun self =>
    set_stats self (Stats.set (stats self) k
                      {| Stats.mean := Some m; Stats.std := Some s |})).

Definition _compute_baseline : M unit :=
  baseline_of Feature.num_txs ;;
  baseline_of Feature.total_amount ;;
  baseline_of Feature.max_amount ;;
  baseline_of Feature.time_delta ;;
  modify (fun self => set_baseline_ready self true).

(** *** [_z_score]

    [mean] and [std] come from [self.stats] and are [None] before the
    baseline exists: [None == 0] is false and arithmetic on [None] raises
    [TypeError]. *)
Definition _z_score (value : Float.float) (mean std : option Float.float)
  : result Float.float :=
  if match std with Some s => Float.eqb s Float.zero | None => false end
  then Ok Float.zero
  else
    match mean, std with
    | Some m, Some s => py_div (Float.sub value m) s
    | _, _ => Raise TypeError
    end.

(** *** [process_block] *)

(** The loop that fills [z_scores], in the order of the feature list. *)
Fixpoint z_scores_loop (self : t) (features : Features.t) (names : list Feature.t)
  : result (list (string * Float.float)) :=
  match names with
  | [] => Ok []
  | feat_name :: rest =>
      let value := Features.get features feat_name in
      let mean := Stats.mean (Stats.get (stats self) feat_name) in
      let std := Stats.std (Stats.get (stats self) feat_name) in
      match _z_score value mean std with
      | inl e => Raise e
      | inr z =>
          match z_scores_loop self features rest with
          | inl e => Raise e
          | inr zs => Ok ((Feature.name feat_name, z) :: zs)
          end
      end
  end.

(** [[f for f, z in z_scores.items() if abs(z) > self.z_threshold]]. *)
Definition anomalous_features (z_threshold : Float.float)
           (z_scores : list (string * Float.float)) : list string :=
  map fst (filter (fun fz => Float.gtb (Float.abs (snd fz)) z_threshold) z_scores).

Definition process_block (block_index : Z) (features : Features.t)
  : M Decision.t :=
  _update_history (Features.num_txs features) (Features.total_amount features)
                  (Features.max_amount features) (Features.time_delta features) ;;
  let decision :=
    {| Decision.block_index := block_index;
       Decision.is_anomaly := false;
       Decision.feature_z_scores := [];
       Decision.reason := Text "" |} in
  self <- get ;;
  if Z.of_nat (List.length (num_txs_history self)) <? baseline_size self then
    ret (Decision.set_reason decision (Text "Not enough data for baseline"))
  else if negb (baseline_ready self) then
    _compute_baseline ;;
    ret (Decision.set_reason decision
           (Text "Baseline just computed; no detection yet"))
  else
    z_scores <- lift (z_scores_loop self features Feature.all) ;;
    let decision := Decision.set_feature_z_scores decision z_scores in
    let anomalies := anomalous_features (z_threshold self) z_scores in
    match anomalies with
    | _ :: _ =>
        ret (Decision.set_reason (Decision.set_is_anomaly decision true)
               (AnomalousFeatures anomalies (z_threshold self)))
    | [] =>
        ret (Decision.set_reason decision (Text "Within normal range"))
    end.

(** *** [extract_features] *)

(** [sum(t.amount for t in txs)]: float additions from left to right,
    starting from the integer 0 (CPython 3.11). *)
Definition py_sum (xs : list Float.float) : Float.float :=
  fold_left Float.add xs Float.zero.

(** [max(xs, default=d)]: the first element, replaced by each later one
    that compares greater. *)
Definition py_max (xs : list Float.float) (default : Float.float) : Float.float :=
  match xs with
  | [] => default
  | x :: rest => fold_left (fun m item => if Float.gtb item m then item else m) rest x
  end.

Definition extract_features (current_block : Block) (previous_block : option Block)
  : Features.t :=
  let amounts := map amount (transactions current_block) in
  let num_txs := Float.of_nat (List.length (transactions current_block)) in
  let total_amount :=
    match transactions current_block with
    | _ :: _ => py_sum amounts
    | [] => Float.zero
    end in
  let max_amount := py_max amounts Float.zero in
  let time_delta :=
    match previous_block with
    | Some previous => Float.sub (timestamp current_block) (timestamp previous)
    | None => Float.zero
    end in
  {| Features.num_txs := num_txs;
     Features.total_amount := total_amount;
     Features.max_amount := max_amount;
     Features.time_delta := time_delta |}.

End AnomalyDetector.

(** ** The rule-based checker *)

(** A violation message.  Each f-string, for instance
    [f"Rule1: max_amount {features['max_amount']:.2f} > {self.max_single_tx_amount:.2f}"],
    is kept by its rule and its two holes: the measured value and the
    threshold. *)
Inductive Violation : Type :=
| Rule1 (max_amount max_single_tx_amount : Float.float)
| Rule2 (total_amount max_block_total_amount : Float.float)
| Rule3 (time_delta min_time_delta : Float.float).

Definition rule_number (v : Violation) : nat :=
  match v with
  | Rule1 _ _ => 1
  | Rule2 _ _ => 2
  | Rule3 _ _ => 3
  end.

(** Whether a violation of rule [n] was recorded. *)
Definition has_rule (n : nat) (violations : list Violation) : bool :=
  existsb (fun v => Nat.eqb (rule_number v) n) violations.

Module RuleDecision.

Record t : Type := {
  rule_alert : bool;
  violations : list Violation
}.

End RuleDecision.

Module RuleBasedSecurityChecker.

Record t : Type := {
  max_single_tx_amount : Float.float;
  max_block_total_amount : Float.float;
  min_time_delta : Float.float
}.

(** The defaults of [__init__]: 2000.0, 5000.0 and 0.02. *)
Definition default : t :=
  {| max_single_tx_amount := Float.of_Z 2000;
     max_block_total_amount := Float.of_Z 5000;
     min_time_delta := Float.decimal 2 2 |}.

(** [violations.append(v)] under [if cond]. *)
Definition append_if (cond : bool) (v : Violation) (violations : list Violation)
  : list Violation :=
  if cond then violations ++ [v] else violations.

Definition check_rules (self : t) (features : Features.t) : RuleDecision.t :=
  let violations := [] in
  let violations :=
    append_if (Float.gtb (Features.max_amount features) (max_single_tx_amount self))
      (Rule1 (Features.max_amount features) (max_single_tx_amount self))
      violations in
  let violations :=
    append_if (Float.gtb (Features.total_amount features) (max_block_total_amount self))
      (Rule2 (Features.total_amount features) (max_block_total_amount self))
      violations in
  let violations :=
    append_if (negb (Float.eqb (Features.time_delta features) Float.zero)
               && Float.ltb (Features.time_delta features) (min_time_delta self))
      (Rule3 (Features.time_delta features) (min_time_delta self))
      violations in
  {| RuleDecision.rule_alert := (0 <? Z.of_nat (List.length violations));
     RuleDecision.violations := violations |}.

End RuleBasedSecurityChecker.

(** ** Runs of the detector and its three states *)

Module Run.

Import AnomalyDetector.

(** A call [process_block(block_index, features)]. *)
Definition call : Type := (Z * Features.t)%type.

(** The calls are made one after the other on the same detector; the
    outcome of each is recorded, and a caller that catches an exception
    keeps using the detector it has. *)
Fixpoint run (calls : list call) (self : t) : list (result Decision.t) * t :=
  match calls with
  | [] => ([], self)
  | (block_index, features) :: rest =>
      let '(r, self') := process_block block_index features self in
      let '(rs, self'') := run rest self' in
      (r :: rs, self'')
  end.

(** The detector after the first [j] calls on a fresh one. *)
Definition state_after (baseline_size : Z) (z_threshold : Float.float)
           (calls : list call) (j : nat) : t :=
  snd (run (firstn j calls) (init baseline_size z_threshold)).

(** The values of one feature over a list of feature vectors. *)
Definition column (k : Feature.t) (fs : list Features.t) : list Float.float :=
  map (fun f => Features.get f k) fs.

(** The entry of [self.stats] a [mean_std] result is stored as. *)
Definition entry_of (ms : Float.float * Float.float) : Stats.entry :=
  {| Stats.mean := Some (fst ms); Stats.std := Some (snd ms) |}.

(** The statistics table filled from the four [mean_std] results. *)
Definition baseline_stats (base : Feature.t -> Float.float * Float.float) : Stats.t :=
  {| Stats.num_txs := entry_of (base Feature.num_txs);
     Stats.total_amount := entry_of (base Feature.total_amount);
     Stats.max_amount := entry_of (base Feature.max_amount);
     Stats.time_delta := entry_of (base Feature.time_delta) |}.

(** The detector once [_update_history] has appended the features. *)
Definition appended (self : t) (features : Features.t) : t :=
  set_histories self
    (num_txs_history self ++ [Features.num_txs features])
    (total_amount_history self ++ [Features.total_amount features])
    (max_amount_history self ++ [Features.max_amount features])
    (time_delta_history self ++ [Features.time_delta features]).

(** The decision dict as [process_block] first builds it, with the reason
    it gets on an early return. *)
Definition early_decision (block_index : Z) (text : string) : Decision.t :=
  {| Decision.block_index := block_index;
     Decision.is_anomaly := false;
     Decision.feature_z_scores := [];
     Decision.reason := Text text |}.

(** Collecting: the next call still leaves the history short. *)
Definition Collecting (self : t) : Prop :=
  Z.of_nat (List.length (num_txs_history self)) + 1 < baseline_size self.

(** Scoring: the baseline has been computed. *)
Definition Scoring (self : t) : Prop :=
  baseline_ready self = true
  /\ baseline_size self <= Z.of_nat (List.length (num_txs_history self))
  /\ forall k, exists m s,
       Stats.get (stats self) k = {| Stats.mean := Some m; Stats.std := Some s |}.

(** The z-score [process_block] computes for feature [k]. *)
Definition z_of (self : t) (features : Features.t) (k : Feature.t)
  : result Float.float :=
  _z_score (Features.get features k)
           (Stats.mean (Stats.get (stats self) k))
           (Stats.std (Stats.get (stats self) k)).

(** Its value, 0.0 standing in when [_z_score] raises. *)
Definition z_value (self : t) (features : Features.t) (k : Feature.t) : Float.float :=
  match z_of self features k with
  | inr z => z
  | inl _ => Float.zero
  end.

(** The [z_scores] dict of a scoring call. *)
Definition z_scores_of (self : t) (features : Features.t)
  : list (string * Float.float) :=
  map (fun k => (Feature.name k, z_value self features k)) Feature.all.

(** The features whose z-score exceeds the threshold, in the order of the
    scoring loop. *)
Definition exceeding (self : t) (features : Features.t) : list Feature.t :=
  filter (fun k => Float.gtb (Float.abs (z_value self features k)) (z_threshold self))
         Feature.all.

(** The decision dict at the end of a scoring call. *)
Definition scored_decision (block_index : Z) (z_threshold : Float.float)
           (z_scores : list (string * Float.float)) : Decision.t :=
  match anomalous_features z_threshold z_scores with
  | [] =>
      {| Decision.block_index := block_index;
         Decision.is_anomaly := false;
         Decision.feature_z_scores := z_scores;
         Decision.reason := Text "Within normal range" |}
  | (_ :: _) as anomalies =>
      {| Decision.block_index := block_index;
         Decision.is_anomaly := true;
         Decision.feature_z_scores := z_scores;
         Decision.reason := AnomalousFeatures anomalies z_threshold |}
  end.

(** A call returned a decision that flags nothing. *)
Definition not_flagged (r : result Decision.t) : Prop :=
  exists d, r = Ok d /\ Decision.is_anomaly d = false.

(** A call raised. *)
Definition raised (r : result Decision.t) : Prop := exists e, r = Raise e.

(** A call returned. *)
Definition returned (r : result Decision.t) : Prop := exists d, r = Ok d.

(** The baseline is due and not ready, and some history holds an infinity
    or a NaN. *)
Definition Poisoned (self : t) : Prop :=
  baseline_ready self = false
  /\ baseline_size self <= Z.of_nat (List.length (num_txs_history self)) + 1
  /\ exists k, forallb Float.is_finite (history self k) = false.

(** The baseline is ready with standard deviation 0.0 for every feature,
    and the threshold is not negative. *)
Definition Blind (self : t) : Prop :=
  Scoring self
  /\ (forall k, exists s,
         Stats.std (Stats.get (stats self) k) = Some s
         /\ Float.eqb s Float.zero = true)
  /\ Float.ltb (z_threshold self) Float.zero = false.

End Run.

(** ** The end-to-end scenario of the specification *)

Module Scenario.

Import AnomalyDetector.

Definition features (num_txs total_amount max_amount time_delta : Z) : Features.t :=
  {| Features.num_txs := Float.of_Z num_txs;
     Features.total_amount := Float.of_Z total_amount;
     Features.max_amount := Float.of_Z max_amount;
     Features.time_delta := Float.of_Z time_delta |}.

(** Three blocks with num_txs = [2,2,2], total_amount = [10,10,10],
    max_amount = [5,5,5] and time_delta = [0,1,1]. *)
Definition first_three : list Run.call :=
  [(1, features 2 10 5 0); (2, features 2 10 5 1); (3, features 2 10 5 1)].

(** The detector after the three blocks, [baseline_size = 3]. *)
Definition calibrated (z_threshold : Float.float) : t :=
  snd (Run.run first_three (init 3 z_threshold)).

(** 2/3 and the square root of 1/3, each rounded to binary64:
    0.6666666666666666 and 0.5773502691896257. *)
Definition two_thirds : Float.float := S754_finite false 6004799503160661 (-53).
Definition sqrt_third : Float.float := S754_finite false 5200308914369308 (-53).

(** The z-scores of time_delta = 1 and time_delta = 0 against that
    baseline: 0.5773502691896258 and -1.1547005383792515. *)
Definition z_one : Float.float := S754_finite false 5200308914369309 (-53).
Definition z_zero : Float.float := S754_finite true 5200308914369308 (-52).

(** The z-score of a fourth block with time_delta 0 or 1. *)
Definition z_time_delta (time_delta : Z) : Float.float :=
  if time_delta =? 0 then z_zero else z_one.

(** The (mean, standard deviation) pairs of the three blocks. *)
Definition baseline (k : Feature.t) : Float.float * Float.float :=
  match k with
  | Feature.num_txs => (Float.of_Z 2, Float.zero)
  | Feature.total_amount => (Float.of_Z 10, Float.zero)
  | Feature.max_amount => (Float.of_Z 5, Float.zero)
  | Feature.time_delta => (two_thirds, sqrt_third)
  end.

(** A fourth block like the earlier ones, with the given time_delta. *)
Definition fourth (time_delta : Z) : Features.t := features 2 10 5 time_delta.

Definition four_calls : list Run.call := first_three ++ [(4, fourth 1)].

(** The decision on the fourth block when nothing exceeds the threshold. *)
Definition fourth_decision (time_delta : Z) : Decision.t :=
  {| Decision.block_index := 4;
     Decision.is_anomaly := false;
     Decision.feature_z_scores :=
       [(Feature.name Feature.num_txs, Float.zero);
        (Feature.name Feature.total_amount, Float.zero);
        (Feature.name Feature.max_amount, Float.zero);
        (Feature.name Feature.time_delta, z_time_delta time_delta)];
     Decision.reason := Text "Within normal range" |}.

(** Two blocks one second apart; the second carries amounts 5 and 3. *)
Definition genesis : Block :=
  {| index := 0; timestamp := Float.of_Z 100; transactions := [];
     previous_hash := "0"; nonce := 0; hash := "" |}.

Definition block_one : Block :=
  {| index := 1; timestamp := Float.of_Z 101;
     transactions :=
       [ {| sender := "Alice"; receiver := "Eve"; amount := Float.of_Z 5 |};
         {| sender := "Bob"; receiver := "Frank"; amount := Float.of_Z 3 |} ];
     previous_hash := ""; nonce := 0; hash := "" |}.

End Scenario.

(** ** Blocks and the chain ([models.py], [blockchain.py])

    The digest of a block is SHA-256 over the JSON text of its five content
    fields.  It is taken as a parameter: a function of those five fields.
    The clock reading [time.time()] of a method is an argument of the
    method. *)

Section Hashing.

(** [hashlib.sha256(json.dumps(block_dict, sort_keys=True).encode()).hexdigest()]
    as a function of the entries [index], [timestamp], [transactions],
    [previous_hash] and [nonce] of [block_dict]. *)
Variable sha256_json : Z -> Float.float -> list Transaction -> string -> Z -> string.

(** [Block.compute_hash]: the stored [hash] is not part of the digest. *)
Definition compute_hash (self : Block) : string :=
  sha256_json (index self) (timestamp self) (transactions self)
              (previous_hash self) (nonce self).

(** [Block(index=..., timestamp=..., transactions=..., previous_hash=...)]:
    [nonce] takes its default 0 and [__post_init__] stores the digest. *)
Definition new_block (index : Z) (timestamp : Float.float)
           (transactions : list Transaction) (previous_hash : string) : Block :=
  let self :=
    {| index := index; timestamp := timestamp; transactions := transactions;
       previous_hash := previous_hash; nonce := 0; hash := EmptyString |} in
  {| index := index; timestamp := timestamp; transactions := transactions;
     previous_hash := previous_hash; nonce := 0; hash := compute_hash self |}.

End Hashing.

(** What [is_chain_valid] prints:
    [f"Invalid hash at block {current.index}"] and
    [f"Broken chain link between blocks {previous.index} and {current.index}"],
    each kept by its holes. *)
Inductive Message : Type :=
| InvalidHash (current_index : Z)
| BrokenLink (previous_index current_index : Z).

Module Blockchain.

Record t : Type := { chain : list Block }.

Section WithDigest.

Variable sha256_json : Z -> Float.float -> list Transaction -> string -> Z -> string.

(** [create_genesis_block], the clock reading being [now]. *)
Definition create_genesis_block (now : Float.float) (self : t) : t :=
  let genesis_block := new_block sha256_json 0 now [] "0" in
  {| chain := chain self ++ [genesis_block] |}.

(** [__init__]. *)
Definition init (now : Float.float) : t :=
  create_genesis_block now {| chain := [] |}.

(** The property [last_block], [self.chain[-1]]; [None] stands for the
    [IndexError] of an empty list. *)
Definition last_block (self : t) : option Block :=
  match chain self with
  | [] => None
  | b :: rest => Some (List.last rest b)
  end.

(** [add_block]: the chain afterwards and the block returned; [None]
    stands for the [IndexError] of [last_block], raised before the chain is
    touched. *)
Definition add_block (now : Float.float) (transactions : list Transaction) (self : t)
  : option (t * Block) :=
  match last_block self with
  | None => None
  | Some last =>
      let new_block :=
        new_block sha256_json (Z.of_nat (List.length (chain self))) now
                  transactions (hash last) in
      Some ({| chain := chain self ++ [new_block] |}, new_block)
  end.

(** The loop of [is_chain_valid] from position [i] on, [previous] being
    [self.chain[i - 1]] and [rest] the blocks from [self.chain[i]]. *)
Fixpoint check_from (previous : Block) (rest : list Block) : bool * list Message :=
  match rest with
  | [] => (true, [])
  | current :: rest' =>
      if negb (String.eqb (hash current) (compute_hash sha256_json current)) then
        (false, [InvalidHash (index current)])
      else if negb (String.eqb (previous_hash current) (hash previous)) then
        (false, [BrokenLink (index previous) (index current)])
      else check_from current rest'
  end.

(** [is_chain_valid]: the value returned and the messages printed. *)
Definition is_chain_valid (self : t) : bool * list Message :=
  match chain self with
  | [] => (true, [])
  | first :: rest => check_from first rest
  end.

(** [add_block] once per entry of [adds], each with its clock reading; the
    blocks returned are collected. *)
Fixpoint add_blocks (adds : list (Float.float * list Transaction)) (self : t)
  : option (t * list Block) :=
  match adds with
  | [] => Some (self, [])
  | (now, transactions) :: rest =>
      match add_block now transactions self with
      | None => None
      | Some (self', b) =>
          match add_blocks rest self' with
          | None => None
          | Some (self'', bs) => Some (self'', b :: bs)
          end
      end
  end.

(** Block [i] of a chain passes the two checks of [is_chain_valid]. *)
Definition block_ok (previous current : Block) : Prop :=
  hash current = compute_hash sha256_json current
  /\ previous_hash current = hash previous.

(** Every block of [rest] passes them, [previous] being the block before
    the first. *)
Fixpoint linked (previous : Block) (rest : list Block) : Prop :=
  match rest with
  | [] => True
  | current :: rest' => block_ok previous current /\ linked current rest'
  end.

End WithDigest.

End Blockchain.

(** ** The simulation loop of [experiment.py]

    [run_experiment] draws random numbers, reads the clock, sleeps and
    prints.  What it draws and reads in one iteration is given as a
    [Round]; what it prints for one block is returned as a [Report].  The
    number of rounds is [num_blocks]. *)

Module Experiment.

(** One iteration's draws: the synthetic label
    [random.random() < anomaly_probability], the transactions generated
    for the block, and the clock reading of [add_block]. *)
Record Round : Type := {
  is_anomalous_block : bool;
  txs : list Transaction;
  now : Float.float
}.

(** What one iteration logs. *)
Record Report : Type := {
  block : Block;
  label : bool;
  features : Features.t;
  baseline_ready : bool;
  decision : Decision.t;
  rule_decision : RuleDecision.t
}.

(** What ends the loop early: the [IndexError] of [last_block], or an
    exception out of [process_block]. *)
Inductive Failure : Type :=
| ChainIndexError
| DetectorError (e : exn).

(** The local variables [bc], [detector] and [previous_block]. *)
Record State : Type := {
  bc : Blockchain.t;
  detector : AnomalyDetector.t;
  previous_block : Block
}.

(** The detector is made with [z_threshold=1.5], the checker with
    2000.0, 5000.0 and 0.02. *)
Definition z_threshold : Float.float := Float.decimal 15 1.

Definition rule_checker : RuleBasedSecurityChecker.t :=
  {| RuleBasedSecurityChecker.max_single_tx_amount := Float.of_Z 2000;
     RuleBasedSecurityChecker.max_block_total_amount := Float.of_Z 5000;
     RuleBasedSecurityChecker.min_time_delta := Float.decimal 2 2 |}.

Section WithDigest.

Variable sha256_json : Z -> Float.float -> list Transaction -> string -> Z -> string.

(** The body of the [for] loop. *)
Definition iteration (r : Round) (st : State) : (Failure + Report) * State :=
  match Blockchain.add_block sha256_json (now r) (txs r) (bc st) with
  | None => (inl ChainIndexError, st)
  | Some (bc', new_block) =>
      let features :=
        AnomalyDetector.extract_features new_block (Some (previous_block st)) in
      match AnomalyDetector.process_block (index new_block) features (detector st) with
      | (inl e, detector') =>
          (inl (DetectorError e),
           {| bc := bc'; detector := detector';
              previous_block := previous_block st |})
      | (inr decision, detector') =>
          let rule_decision :=
            RuleBasedSecurityChecker.check_rules rule_checker features in
          (inr {| block := new_block;
                  label := is_anomalous_block r;
                  features := features;
                  baseline_ready := AnomalyDetector.baseline_ready detector';
                  decision := decision;
                  rule_decision := rule_decision |},
           {| bc := bc'; detector := detector'; previous_block := new_block |})
      end
  end.

(** The [for] loop: the reports so far, the failure that stopped it if
    any, and the variables at the end. *)
Fixpoint loop (rounds : list Round) (st : State)
  : list Report * option Failure * State :=
  match rounds with
  | [] => ([], None, st)
  | r :: rest =>
      match iteration r st with
      | (inl f, st') => ([], Some f, st')
      | (inr report, st') =>
          let '(reports, f, st'') := loop rest st' in
          (report :: reports, f, st'')
      end
  end.

(** What [run_experiment] printed and how it ended; the final line
    [print("Final chain validity:", bc.is_chain_valid())] is reached when
    nothing was raised. *)
Record Outcome : Type := {
  reports : list Report;
  failure : option Failure;
  final_validity : option (bool * list Message);
  final_state : option State
}.

Definition run_experiment (genesis_now : Float.float) (baseline_size : Z)
           (rounds : list Round) : Outcome :=
  let bc := Blockchain.init sha256_json genesis_now in
  let detector := AnomalyDetector.init baseline_size z_threshold in
  match Blockchain.last_block bc with
  | None =>
      {| reports := []; failure := Some ChainIndexError;
         final_validity := None; final_state := None |}
  | Some previous_block =>
      let '(reports, f, st) :=
        loop rounds {| bc := bc; detector := detector;
                       previous_block := previous_block |} in
      {| reports := reports;
         failure := f;
         final_validity :=
           match f with
           | None => Some (Blockchain.is_chain_valid sha256_json (Experiment.bc st))
           | Some _ => None
           end;
         final_state := Some st |}
  end.

(** The calls to [process_block] behind a list of reports. *)
Definition calls_of (reports : list Report) : list Run.call :=
  map (fun report => (index (block report), features report)) reports.

(** The block [add_block] makes in a state whose [previous_block] is the
    last block of the chain, and the features extracted for it. *)
Definition next_block (st : State) (r : Round) : Block :=
  new_block sha256_json (Z.of_nat (List.length (Blockchain.chain (bc st))))
            (now r) (txs r) (hash (previous_block st)).

Definition next_features (st : State) (r : Round) : Features.t :=
  AnomalyDetector.extract_features (next_block st r) (Some (previous_block st)).

(** The variables after an iteration in which [process_block] returned. *)
Definition next_state (st : State) (r : Round) (detector' : AnomalyDetector.t)
  : State :=
  {| bc := {| Blockchain.chain := Blockchain.chain (bc st) ++ [next_block st r] |};
     detector := detector';
     previous_block := next_block st r |}.

Definition report_of (st : State) (r : Round) (decision : Decision.t)
           (detector' : AnomalyDetector.t) : Report :=
  {| block := next_block st r;
     label := is_anomalous_block r;
     features := next_features st r;
     baseline_ready := AnomalyDetector.baseline_ready detector';
     decision := decision;
     rule_decision :=
       RuleBasedSecurityChecker.check_rules rule_checker (next_features st r) |}.

(** The loop invariant on the chain: it passes the checks of
    [is_chain_valid] and [previous_block] is its last block. *)
Definition Good (st : State) : Prop :=
  exists first rest,
    Blockchain.chain (bc st) = first :: rest
    /\ previous_block st = List.last rest first
    /\ Blockchain.linked sha256_json first rest.

(** The variables when the loop starts. *)
Definition start (genesis_now : Float.float) (baseline_size : Z) : State :=
  {| bc := Blockchain.init sha256_json genesis_now;
     detector := AnomalyDetector.init baseline_size z_threshold;
     previous_block := new_block sha256_json 0 genesis_now [] "0" |}.

End WithDigest.

End Experiment.

(** ** A small chain

    Concrete chains need a concrete digest.  This one is not SHA-256: it
    joins the previous hash, the index and the number of transactions,
    enough to tell the blocks below apart. *)

Module ChainExample.

Definition digit (n : Z) : string :=
  String (Ascii.ascii_of_nat (48 + Z.to_nat (n mod 10))) EmptyString.

Definition toy_digest (index : Z) (timestamp : Float.float)
           (transactions : list Transaction) (previous_hash : string) (nonce : Z)
  : string :=
  String.append previous_hash
    (String.append (digit index) (digit (Z.of_nat (List.length transactions)))).

Definition payment (amount : Z) : Transaction :=
  {| sender := "Alice"; receiver := "Eve"; amount := Float.of_Z amount |}.

(** The chain after [Blockchain()] at time 100 and two [add_block] calls,
    at times 101 and 102. *)
Definition two_adds : list (Float.float * list Transaction) :=
  [(Float.of_Z 101, [payment 5; payment 3]); (Float.of_Z 102, [payment 7])].

Definition genesis : Block := new_block toy_digest 0 (Float.of_Z 100) [] "0".
Definition first : Block := new_block toy_digest 1 (Float.of_Z 101) [payment 5; payment 3] "000".
Definition second : Block := new_block toy_digest 2 (Float.of_Z 102) [payment 7] "00012".

Definition example_chain : Blockchain.t :=
  {| Blockchain.chain := [genesis; first; second] |}.

(** The genesis block with a payment slipped in and its stored hash kept. *)
Definition forged_genesis : Block :=
  {| index := 0; timestamp := Float.of_Z 100; transactions := [payment 1000];
     previous_hash := "0"; nonce := 0; hash := hash genesis |}.

(** The first block with another payment and its stored hash kept, and the
    same block with the hash computed again. *)
Definition forged_first : Block :=
  {| index := 1; timestamp := Float.of_Z 101; transactions := [payment 1000];
     previous_hash := "000"; nonce := 0; hash := hash first |}.

Definition rehashed_first : Block :=
  new_block toy_digest 1 (Float.of_Z 101) [payment 1000] "000".

End ChainExample.

(** ** More concrete inputs *)

Module Examples.

Import AnomalyDetector.

(** A feature vector whose time_delta is +infinity. *)
Definition infinite_delta : Features.t :=
  {| Features.num_txs := Float.of_Z 2;
     Features.total_amount := Float.of_Z 10;
     Features.max_amount := Float.of_Z 5;
     Features.time_delta := S754_infinity false |}.

(** A detector with [baseline_size = 2] after one call with that vector. *)
Definition poisoned : t :=
  snd (process_block 1 infinite_delta (init 2 (Float.of_Z 3))).

(** A feature vector whose max_amount is NaN. *)
Definition nan_amount : Features.t :=
  {| Features.num_txs := Float.of_Z 2;
     Features.total_amount := Float.of_Z 10;
     Features.max_amount := S754_nan;
     Features.time_delta := Float.of_Z 1 |}.

(** Looser thresholds than the defaults: 3000.0, 6000.0 and 0.01. *)
Definition loose : RuleBasedSecurityChecker.t :=
  {| RuleBasedSecurityChecker.max_single_tx_amount := Float.of_Z 3000;
     RuleBasedSecurityChecker.max_block_total_amount := Float.of_Z 6000;
     RuleBasedSecurityChecker.min_time_delta := Float.decimal 1 2 |}.

(** A block stamped like the genesis block of the small chain. *)
Definition same_tick : Block :=
  new_block ChainExample.toy_digest 1 (Float.of_Z 100) [ChainExample.payment 5] "000".

(** Three calls with finite features; the time_delta values are 1.7e308,
    -1.7e308 and 0.0, and the third block has five transactions. *)
Definition huge : Float.float := Float.of_Z (17 * 10 ^ 307).

Definition with_delta (num_txs : Z) (time_delta : Float.float) : Features.t :=
  {| Features.num_txs := Float.of_Z num_txs;
     Features.total_amount := Float.of_Z 10;
     Features.max_amount := Float.of_Z 5;
     Features.time_delta := time_delta |}.

Definition overflow_calls : list Run.call :=
  [(1, with_delta 2 huge); (2, with_delta 2 (SFopp huge));
   (3, with_delta 5 Float.zero)].

(** Every feature value of every call is finite. *)
Definition all_finite (calls : list Run.call) : bool :=
  forallb (fun c => forallb (fun k => Float.is_finite (Features.get (snd c) k))
                            Feature.all)
          calls.

(** Two rounds of the simulation, one second apart. *)
Definition rounds : list Experiment.Round :=
  [ {| Experiment.is_anomalous_block := false;
       Experiment.txs := [ChainExample.payment 5; ChainExample.payment 3];
       Experiment.now := Float.of_Z 101 |};
    {| Experiment.is_anomalous_block := true;
       Experiment.txs := [ChainExample.payment 7];
       Experiment.now := Float.of_Z 102 |} ].

Definition outcome : Experiment.Outcome :=
  Experiment.run_experiment ChainExample.toy_digest (Float.of_Z 100) 2 rounds.

End Examples.

(** * Properties *)

(** ** The order on floats *)

Section FloatOrder.

Local Ltac pos_compare :=
  repeat match goal with
    | |- context [Pos.compare_cont Eq ?p ?q] =>
        change (Pos.compare_cont Eq p q) with (Pos.compare p q)
    | H : context [Pos.compare_cont Eq ?p ?q] |- _ =>
        change (Pos.compare_cont Eq p q) with (Pos.compare p q) in H
    end.

Local Ltac split_compares :=
  repeat match goal with
    | |- context [Z.compare ?a ?b] => destruct (Z.compare_spec a b)
    | H : context [Z.compare ?a ?b] |- _ => destruct (Z.compare_spec a b)
    | |- context [Pos.compare ?a ?b] => destruct (Pos.compare_spec a b)
    | H : context [Pos.compare ?a ?b] |- _ => destruct (Pos.compare_spec a b)
    end.

Local Ltac order_cases :=
  simpl in *; pos_compare; try discriminate; try reflexivity;
  split_compares; simpl in *; subst;
  try discriminate; try reflexivity; try lia.

Lemma compare_antisym (x y : Float.float) :
  SFcompare y x = option_map CompOpp (SFcompare x y).
Proof.
  destruct x as [[]|[]| |[] mx ex], y as [[]|[]| |[] my ey]; order_cases.
Qed.

Lemma ltb_leb (x y : Float.float) :
  Float.ltb x y = true -> Float.leb x y = true.
Proof.
  unfold Float.ltb, Float.leb, SFltb, SFleb.
  destruct (SFcompare x y) as [[]|]; congruence.
Qed.

Lemma leb_not_ltb (x y : Float.float) :
  Float.leb x y = true -> Float.ltb y x = false.
Proof.
  unfold Float.ltb, Float.leb, SFltb, SFleb.
  rewrite (compare_antisym x y).
  destruct (SFcompare x y) as [[]|]; simpl; congruence.
Qed.

Lemma not_ltb_leb (x y : Float.float) :
  x <> S754_nan -> y <> S754_nan ->
  Float.ltb x y = false -> Float.leb y x = true.
Proof.
  unfold Float.ltb, Float.leb, SFltb, SFleb.
  rewrite (compare_antisym x y). intros Hx Hy.
  destruct (SFcompare x y) as [[]|] eqn:E; simpl; try congruence.
  destruct x as [[]|[]| |[] mx ex], y as [[]|[]| |[] my ey];
    simpl in E; congruence.
Qed.

Lemma leb_trans (x y z : Float.float) :
  Float.leb x y = true -> Float.leb y z = true -> Float.leb x z = true.
Proof.
  unfold Float.leb, SFleb.
  destruct x as [[]|[]| |[] mx ex], y as [[]|[]| |[] my ey],
           z as [[]|[]| |[] mz ez]; order_cases.
Qed.

Lemma leb_refl (x : Float.float) : x <> S754_nan -> Float.leb x x = true.
Proof.
  unfold Float.leb, SFleb.
  destruct x as [[]|[]| |[] mx ex]; intros; try congruence; order_cases.
Qed.

(** A value below zero is not zero and lies below every value that is at
    least zero. *)
Lemma negative_below (x y : Float.float) :
  Float.ltb x Float.zero = true -> Float.leb Float.zero y = true ->
  Float.eqb x Float.zero = false /\ Float.ltb x y = true.
Proof.
  unfold Float.ltb, Float.leb, Float.eqb, SFltb, SFleb, SFeqb, Float.zero.
  destruct x as [[]|[]| |[] mx ex], y as [[]|[]| |[] my ey];
    simpl; intros; try discriminate; split; reflexivity.
Qed.

(** A value above zero is not zero. *)
Lemma positive_not_zero (x : Float.float) :
  Float.ltb Float.zero x = true -> Float.eqb x Float.zero = false.
Proof.
  unfold Float.ltb, Float.eqb, SFltb, SFeqb, Float.zero.
  destruct x as [[]|[]| |[] mx ex]; simpl; intros; try discriminate; reflexivity.
Qed.

Lemma leb_ltb_trans (x y z : Float.float) :
  Float.leb x y = true -> Float.ltb y z = true -> Float.ltb x z = true.
Proof.
  unfold Float.leb, Float.ltb, SFleb, SFltb.
  destruct x as [[]|[]| |[] mx ex], y as [[]|[]| |[] my ey],
           z as [[]|[]| |[] mz ez]; order_cases.
Qed.

Lemma ltb_leb_trans (x y z : Float.float) :
  Float.ltb x y = true -> Float.leb y z = true -> Float.ltb x z = true.
Proof.
  unfold Float.leb, Float.ltb, SFleb, SFltb.
  destruct x as [[]|[]| |[] mx ex], y as [[]|[]| |[] my ey],
           z as [[]|[]| |[] mz ez]; order_cases.
Qed.

(** Comparisons with a NaN are false. *)
Lemma ltb_nan_r (x : Float.float) : Float.ltb x S754_nan = false.
Proof. destruct x as [[]|[]| |[] mx ex]; reflexivity. Qed.

Lemma ltb_nan_l (x : Float.float) : Float.ltb S754_nan x = false.
Proof. reflexivity. Qed.

(** A finite value minus itself is +0.0. *)
Lemma sub_diag (x : Float.float) :
  Float.is_finite x = true -> Float.sub x x = Float.zero.
Proof.
  destruct x as [[]|[]| |s m e]; try discriminate; try reflexivity.
  intros _. unfold Float.sub, SFsub. rewrite Z.sub_diag. reflexivity.
Qed.

End FloatOrder.

(** ** Feature extraction *)

Section ExtractFeatures.

Import AnomalyDetector.

Let step (m item : Float.float) : Float.float :=
  if Float.gtb item m then item else m.

Lemma fold_max_in (rest : list Float.float) (x : Float.float) :
  In (fold_left step rest x) (x :: rest).
Proof.
  revert x. induction rest as [|item rest IH]; intros x; simpl.
  - now left.
  - destruct (IH (step x item)) as [E|E].
    + rewrite <- E. unfold step. destruct (Float.gtb item x); auto.
    + auto.
Qed.

Lemma step_bounds (x item : Float.float) :
  x <> S754_nan -> item <> S754_nan ->
  step x item <> S754_nan
  /\ Float.leb x (step x item) = true
  /\ Float.leb item (step x item) = true.
Proof.
  intros Hx Hi. unfold step, Float.gtb.
  destruct (Float.ltb x item) eqn:E.
  - auto using ltb_leb, leb_refl.
  - auto using not_ltb_leb, leb_refl.
Qed.

Lemma fold_max_upper (rest : list Float.float) (x : Float.float) :
  x <> S754_nan -> (forall a, In a rest -> a <> S754_nan) ->
  forall a, In a (x :: rest) -> Float.leb a (fold_left step rest x) = true.
Proof.
  revert x. induction rest as [|item rest IH]; intros x Hx Hrest a Ha.
  - destruct Ha as [<-|[]]. simpl. now apply leb_refl.
  - simpl fold_left.
    destruct (step_bounds x item Hx (Hrest item (or_introl eq_refl)))
      as (Hn & Hxs & His).
    assert (Hrest' : forall b, In b rest -> b <> S754_nan)
      by (intros b Hb; apply Hrest; now right).
    pose proof (IH (step x item) Hn Hrest') as Hup.
    destruct Ha as [<-|[<-|Ha]].
    + apply leb_trans with (step x item); [exact Hxs|]. apply Hup. now left.
    + apply leb_trans with (step x item); [exact His|]. apply Hup. now left.
    + apply Hup. now right.
Qed.

Lemma py_max_in (xs : list Float.float) (default : Float.float) :
  xs <> [] -> In (py_max xs default) xs.
Proof.
  destruct xs as [|x rest]; [congruence|]. intros _. apply fold_max_in.
Qed.

Lemma py_max_upper (xs : list Float.float) (default : Float.float) :
  (forall a, In a xs -> a <> S754_nan) ->
  forall a, In a xs -> Float.leb a (py_max xs default) = true.
Proof.
  destruct xs as [|x rest]; [intros _ a []|].
  intros H. apply fold_max_upper.
  - apply H. now left.
  - intros b Hb. apply H. now right.
Qed.

(** C5. [extract_features] is a function of the current block and of the
    previous block, if any, into the four-field record: [num_txs] is the
    number of transactions; [total_amount] is their amounts added up from
    left to right and [max_amount] is one of the amounts and at least
    every amount (for amounts that are numbers), both 0.0 on an empty
    list; [time_delta] is the difference of the two timestamps, and 0.0
    without a previous block. *)
Theorem extract_features_spec (current_block : Block) (previous_block : option Block) :
  let f := extract_features current_block previous_block in
  let amounts := map amount (transactions current_block) in
  Features.num_txs f = Float.of_nat (List.length (transactions current_block))
  /\ Features.total_amount f = fold_left Float.add amounts Float.zero
  /\ (transactions current_block = [] ->
      Features.total_amount f = Float.zero /\ Features.max_amount f = Float.zero)
  /\ (transactions current_block <> [] ->
      In (Features.max_amount f) amounts
      /\ ((forall a, In a amounts -> a <> S754_nan) ->
          forall a, In a amounts -> Float.leb a (Features.max_amount f) = true))
  /\ Features.time_delta f =
       match previous_block with
       | Some previous => Float.sub (timestamp current_block) (timestamp previous)
       | None => Float.zero
       end.
Proof.
  cbv zeta. unfold extract_features. cbn [Features.num_txs Features.total_amount
    Features.max_amount Features.time_delta].
  split; [reflexivity|].
  split; [destruct (transactions current_block); reflexivity|].
  split; [intros ->; split; reflexivity|].
  split; [|destruct previous_block; reflexivity].
  intros Hne. split.
  - apply py_max_in. destruct (transactions current_block); [congruence|discriminate].
  - intros Hn a Ha. now apply py_max_upper.
Qed.

End ExtractFeatures.

(** ** The z-score *)

Section ZScore.

Import AnomalyDetector.

Lemma z_score_defined (value mean std : Float.float) :
  _z_score value (Some mean) (Some std) =
  if Float.eqb std Float.zero then Ok Float.zero
  else Ok (Float.ieee_div (Float.sub value mean) std).
Proof.
  unfold _z_score, py_div. destruct (Float.eqb std Float.zero); reflexivity.
Qed.

(** C7. On a baseline mean [m] and standard deviation [s], [_z_score]
    always returns: the quotient [(v - m) / s] when [s > 0], and 0.0 when
    [s == 0] whatever [v] is; the division is never reached with a zero
    divisor, so [ZeroDivisionError] is never raised. *)
Theorem z_score_total_and_guarded (v m s : Float.float) :
  (Float.gtb s Float.zero = true ->
     _z_score v (Some m) (Some s) = Ok (Float.ieee_div (Float.sub v m) s))
  /\ (Float.eqb s Float.zero = true ->
        _z_score v (Some m) (Some s) = Ok Float.zero)
  /\ (exists z, _z_score v (Some m) (Some s) = Ok z)
  /\ (Float.eqb s Float.zero = false ->
        py_div (Float.sub v m) s = Ok (Float.ieee_div (Float.sub v m) s)).
Proof.
  rewrite z_score_defined. repeat split.
  - intros H. apply positive_not_zero in H. now rewrite H.
  - intros ->. reflexivity.
  - destruct (Float.eqb s Float.zero); eauto.
  - intros H. unfold py_div. now rewrite H.
Qed.

End ZScore.

(** ** The rule-based checker *)

Section Rules.

Import RuleBasedSecurityChecker.

Variable self : t.
Variable features : Features.t.

Let r1 : bool :=
  Float.gtb (Features.max_amount features) (max_single_tx_amount self).
Let r2 : bool :=
  Float.gtb (Features.total_amount features) (max_block_total_amount self).
Let r3 : bool :=
  negb (Float.eqb (Features.time_delta features) Float.zero)
  && Float.ltb (Features.time_delta features) (min_time_delta self).

(** The list [check_rules] builds: one optional entry per rule. *)
Lemma check_rules_violations :
  RuleDecision.violations (check_rules self features) =
  (if r1 then [Rule1 (Features.max_amount features) (max_single_tx_amount self)]
   else [])
  ++ (if r2 then [Rule2 (Features.total_amount features) (max_block_total_amount self)]
      else [])
  ++ (if r3 then [Rule3 (Features.time_delta features) (min_time_delta self)]
      else []).
Proof.
  unfold check_rules, append_if. cbn [RuleDecision.violations].
  fold r1 r2 r3. destruct r1, r2, r3; reflexivity.
Qed.

Lemma check_rules_alert :
  RuleDecision.rule_alert (check_rules self features) = r1 || r2 || r3.
Proof.
  unfold check_rules, append_if. cbn [RuleDecision.rule_alert].
  fold r1 r2 r3. destruct r1, r2, r3; reflexivity.
Qed.

(** C4. [rule_alert] holds exactly when the violations list is not empty.
    A Rule1 violation is recorded iff [max_amount > max_single_tx_amount],
    a Rule2 violation iff [total_amount > max_block_total_amount], a Rule3
    violation iff [time_delta != 0.0 and time_delta < min_time_delta]; each
    rule is decided by its own condition alone, and a [time_delta] equal
    to 0.0 records no Rule3 violation whatever [min_time_delta] is. *)
Theorem check_rules_spec :
  let d := check_rules self features in
  (RuleDecision.rule_alert d = true <-> RuleDecision.violations d <> [])
  /\ (has_rule 1 (RuleDecision.violations d) = true <->
      Float.gtb (Features.max_amount features) (max_single_tx_amount self) = true)
  /\ (has_rule 2 (RuleDecision.violations d) = true <->
      Float.gtb (Features.total_amount features) (max_block_total_amount self) = true)
  /\ (has_rule 3 (RuleDecision.violations d) = true <->
      Float.eqb (Features.time_delta features) Float.zero = false
      /\ Float.ltb (Features.time_delta features) (min_time_delta self) = true)
  /\ (Float.eqb (Features.time_delta features) Float.zero = true ->
      has_rule 3 (RuleDecision.violations d) = false).
Proof.
  cbv zeta. rewrite check_rules_violations, check_rules_alert.
  assert (E3 : r3 = true <->
               Float.eqb (Features.time_delta features) Float.zero = false
               /\ Float.ltb (Features.time_delta features) (min_time_delta self) = true).
  { unfold r3. rewrite andb_true_iff, negb_true_iff. tauto. }
  assert (Z3 : Float.eqb (Features.time_delta features) Float.zero = true -> r3 = false).
  { unfold r3. intros ->. reflexivity. }
  fold r1 r2. rewrite <- E3.
  repeat split; try (destruct r1, r2, r3; simpl; intros; congruence).
  intros H. specialize (Z3 H). destruct r1, r2, r3; simpl; congruence.
Qed.

(** C9. A strictly negative [time_delta] records a Rule3 violation for
    every [min_time_delta >= 0]: only a [time_delta] equal to 0.0 is
    exempt. *)
Theorem negative_time_delta_violates_rule3 :
  Float.ltb (Features.time_delta features) Float.zero = true ->
  Float.leb Float.zero (min_time_delta self) = true ->
  let d := check_rules self features in
  In (Rule3 (Features.time_delta features) (min_time_delta self))
     (RuleDecision.violations d)
  /\ has_rule 3 (RuleDecision.violations d) = true
  /\ RuleDecision.rule_alert d = true.
Proof.
  intros Hneg Hmin. cbv zeta.
  destruct (negative_below _ _ Hneg Hmin) as [Hz Hlt].
  assert (E3 : r3 = true) by (unfold r3; now rewrite Hz, Hlt).
  rewrite check_rules_violations, check_rules_alert, E3.
  repeat split.
  - rewrite !in_app_iff. right. right. now left.
  - destruct r1, r2; reflexivity.
  - destruct r1, r2; reflexivity.
Qed.

(** C10. The violations list has at most one entry per rule, hence at
    most three entries, and they come in the order Rule1, Rule2, Rule3. *)
Theorem violations_ordered_one_per_rule :
  let vs := RuleDecision.violations (check_rules self features) in
  (List.length vs <= 3)%nat
  /\ NoDup (map rule_number vs)
  /\ StronglySorted lt (map rule_number vs)
  /\ exists b1 b2 b3 : bool,
       vs = (if b1 then [Rule1 (Features.max_amount features) (max_single_tx_amount self)]
             else [])
            ++ (if b2 then [Rule2 (Features.total_amount features)
                              (max_block_total_amount self)]
                else [])
            ++ (if b3 then [Rule3 (Features.time_delta features) (min_time_delta self)]
                else []).
Proof.
  cbv zeta. rewrite check_rules_violations.
  split; [|split; [|split]].
  - destruct r1, r2, r3; simpl; lia.
  - destruct r1, r2, r3; simpl;
      repeat (constructor; [simpl; intuition discriminate|]); constructor.
  - destruct r1, r2, r3; simpl;
      repeat first [apply SSorted_nil | apply SSorted_cons
                   | apply Forall_nil | apply Forall_cons]; lia.
  - now exists r1, r2, r3.
Qed.

End Rules.

(** ** One call of [process_block] *)

Section ProcessBlock.

Import AnomalyDetector Run.

Variable block_index : Z.
Variable features : Features.t.

(** The three branches of [process_block], after the append. *)
Lemma process_block_unfold (self : t) :
  process_block block_index features self =
  let self1 := appended self features in
  if Z.of_nat (List.length (num_txs_history self1)) <? baseline_size self1 then
    (Ok (early_decision block_index "Not enough data for baseline"), self1)
  else if negb (baseline_ready self1) then
    match _compute_baseline self1 with
    | (inr _, self2) =>
        (Ok (early_decision block_index "Baseline just computed; no detection yet"),
         self2)
    | (inl e, self2) => (inl e, self2)
    end
  else
    match z_scores_loop self1 features Feature.all with
    | inl e => (inl e, self1)
    | inr z_scores =>
        match anomalous_features (z_threshold self1) z_scores with
        | (_ :: _) as anomalies =>
            (Ok {| Decision.block_index := block_index;
                   Decision.is_anomaly := true;
                   Decision.feature_z_scores := z_scores;
                   Decision.reason :=
                     AnomalousFeatures anomalies (z_threshold self1) |}, self1)
        | [] =>
            (Ok {| Decision.block_index := block_index;
                   Decision.is_anomaly := false;
                   Decision.feature_z_scores := z_scores;
                   Decision.reason := Text "Within normal range" |}, self1)
        end
    end.
Proof.
  unfold process_block, _update_history, bind, modify, get, ret, lift.
  fold (appended self features). cbv beta iota zeta delta [Ok].
  destruct (Z.of_nat (List.length (num_txs_history (appended self features)))
            <? baseline_size (appended self features)); [reflexivity|].
  destruct (negb (baseline_ready (appended self features))).
  - destruct (_compute_baseline (appended self features)) as [[e|[]] self2];
      reflexivity.
  - destruct (z_scores_loop (appended self features) features Feature.all)
      as [e|z_scores]; [reflexivity|].
    destruct (anomalous_features (z_threshold (appended self features)) z_scores);
      reflexivity.
Qed.

Lemma appended_length (self : t) :
  Z.of_nat (List.length (num_txs_history (appended self features))) =
  Z.of_nat (List.length (num_txs_history self)) + 1.
Proof.
  unfold appended, set_histories. cbn [num_txs_history].
  rewrite length_app. simpl. lia.
Qed.

Lemma appended_history (self : t) (k : Feature.t) :
  history (appended self features) k = history self k ++ [Features.get features k].
Proof. destruct k; reflexivity. Qed.

(** [_compute_baseline] touches [stats] and [baseline_ready] only, also
    when it raises half way. *)
Lemma compute_baseline_frame (self : t) :
  let self' := snd (_compute_baseline self) in
  (forall k, history self' k = history self k)
  /\ baseline_size self' = baseline_size self
  /\ z_threshold self' = z_threshold self.
Proof.
  unfold _compute_baseline, baseline_of, bind, lift, get, modify.
  cbv beta iota zeta delta [Ok history].
  destruct (mean_std (num_txs_history self)) as [e|[m1 s1]];
    [cbn; repeat split; intros []; reflexivity|].
  cbn [set_stats num_txs_history total_amount_history max_amount_history
       time_delta_history baseline_size z_threshold stats baseline_ready].
  destruct (mean_std (total_amount_history self)) as [e|[m2 s2]];
    [cbn; repeat split; intros []; reflexivity|].
  cbn [set_stats num_txs_history total_amount_history max_amount_history
       time_delta_history baseline_size z_threshold stats baseline_ready].
  destruct (mean_std (max_amount_history self)) as [e|[m3 s3]];
    [cbn; repeat split; intros []; reflexivity|].
  cbn [set_stats num_txs_history total_amount_history max_amount_history
       time_delta_history baseline_size z_threshold stats baseline_ready].
  destruct (mean_std (time_delta_history self)) as [e|[m4 s4]];
    cbn; repeat split; intros []; reflexivity.
Qed.

(** When the four [mean_std] calls return, [_compute_baseline] stores
    their results and sets [baseline_ready]. *)
Lemma compute_baseline_ok (self : t) (base : Feature.t -> Float.float * Float.float) :
  (forall k, mean_std (history self k) = Ok (base k)) ->
  _compute_baseline self =
  (Ok tt, set_baseline_ready (set_stats self (baseline_stats base)) true).
Proof.
  intros H.
  pose proof (H Feature.num_txs) as H1. pose proof (H Feature.total_amount) as H2.
  pose proof (H Feature.max_amount) as H3. pose proof (H Feature.time_delta) as H4.
  unfold _compute_baseline, baseline_of, bind, lift, get, modify.
  unfold Ok in *. cbv beta iota zeta delta [history] in *.
  rewrite H1. destruct (base Feature.num_txs) as [m1 s1] eqn:E1.
  cbn [set_stats num_txs_history total_amount_history max_amount_history
       time_delta_history baseline_size z_threshold stats baseline_ready].
  rewrite H2. destruct (base Feature.total_amount) as [m2 s2] eqn:E2.
  cbn [set_stats num_txs_history total_amount_history max_amount_history
       time_delta_history baseline_size z_threshold stats baseline_ready].
  rewrite H3. destruct (base Feature.max_amount) as [m3 s3] eqn:E3.
  cbn [set_stats num_txs_history total_amount_history max_amount_history
       time_delta_history baseline_size z_threshold stats baseline_ready].
  rewrite H4. destruct (base Feature.time_delta) as [m4 s4] eqn:E4.
  unfold baseline_stats, entry_of. rewrite E1, E2, E3, E4. reflexivity.
Qed.

(** Every call appends the four feature values, whatever branch it takes
    and whether it returns or raises; size and threshold stay. *)
Lemma process_block_frame (self : t) :
  let self' := snd (process_block block_index features self) in
  (forall k, history self' k = history self k ++ [Features.get features k])
  /\ baseline_size self' = baseline_size self
  /\ z_threshold self' = z_threshold self.
Proof.
  rewrite process_block_unfold. cbv zeta.
  destruct (_ <? _).
  - cbn [snd]. split; [apply appended_history|split; reflexivity].
  - destruct (negb _).
    + pose proof (compute_baseline_frame (appended self features)) as F.
      cbv zeta in F. destruct (_compute_baseline _) as [[e|[]] self2];
        cbn [snd] in *; destruct F as (Fh & Fb & Fz);
        (split; [intros k; rewrite Fh; apply appended_history
                |split; [rewrite Fb|rewrite Fz]; reflexivity]).
    + destruct (z_scores_loop _ _ _) as [e|zs];
        [|destruct (anomalous_features _ _)];
        cbn [snd]; (split; [apply appended_history|split; reflexivity]).
Qed.

End ProcessBlock.

(** ** The three states of the detector *)

Section States.

Import AnomalyDetector Run.

Lemma step_collecting (block_index : Z) (features : Features.t) (self : t) :
  Collecting self ->
  process_block block_index features self =
  (Ok (early_decision block_index "Not enough data for baseline"),
   appended self features).
Proof.
  unfold Collecting. intros H. rewrite process_block_unfold. cbv zeta.
  rewrite appended_length.
  change (baseline_size (appended self features)) with (baseline_size self).
  destruct (Z.ltb_spec (Z.of_nat (List.length (num_txs_history self)) + 1)
                       (baseline_size self)); [reflexivity|lia].
Qed.

Lemma step_baseline (block_index : Z) (features : Features.t) (self : t)
      (base : Feature.t -> Float.float * Float.float) :
  baseline_size self <= Z.of_nat (List.length (num_txs_history self)) + 1 ->
  baseline_ready self = false ->
  (forall k, mean_std (history self k ++ [Features.get features k]) = Ok (base k)) ->
  process_block block_index features self =
  (Ok (early_decision block_index "Baseline just computed; no detection yet"),
   set_baseline_ready (set_stats (appended self features) (baseline_stats base)) true).
Proof.
  intros Hlen Hready Hbase. rewrite process_block_unfold. cbv zeta.
  rewrite appended_length.
  change (baseline_size (appended self features)) with (baseline_size self).
  change (baseline_ready (appended self features)) with (baseline_ready self).
  destruct (Z.ltb_spec (Z.of_nat (List.length (num_txs_history self)) + 1)
                       (baseline_size self)); [lia|].
  rewrite Hready. cbn [negb].
  rewrite (compute_baseline_ok (appended self features) base); [reflexivity|].
  intros k. rewrite appended_history. apply Hbase.
Qed.

(** Once the baseline is ready a call only appends to the histories,
    whether it returns or raises. *)
Lemma step_scoring_state (block_index : Z) (features : Features.t) (self : t) :
  baseline_size self <= Z.of_nat (List.length (num_txs_history self)) + 1 ->
  baseline_ready self = true ->
  snd (process_block block_index features self) = appended self features.
Proof.
  intros Hlen Hready. rewrite process_block_unfold. cbv zeta.
  rewrite appended_length.
  change (baseline_size (appended self features)) with (baseline_size self).
  change (baseline_ready (appended self features)) with (baseline_ready self).
  destruct (Z.ltb_spec (Z.of_nat (List.length (num_txs_history self)) + 1)
                       (baseline_size self)); [lia|].
  rewrite Hready. cbn [negb].
  destruct (z_scores_loop _ _ _) as [e|zs]; [reflexivity|].
  destruct (anomalous_features _ _); reflexivity.
Qed.

(** C6, with the reason the code gives.  A call that leaves the history
    shorter than [baseline_size] returns a decision with [is_anomaly]
    false, no z-scores and the reason "Not enough data for baseline"; it
    only appends to the histories, so the detector is still short of its
    baseline and [baseline_ready] and [stats] are as before. *)
Theorem collecting_call_returns_not_enough_data
        (block_index : Z) (features : Features.t) (self : t) :
  Z.of_nat (List.length (num_txs_history self)) + 1 < baseline_size self ->
  exists d self',
    process_block block_index features self = (Ok d, self')
    /\ Decision.block_index d = block_index
    /\ Decision.is_anomaly d = false
    /\ Decision.feature_z_scores d = []
    /\ Decision.reason d = Text "Not enough data for baseline"
    /\ self' = appended self features
    /\ Z.of_nat (List.length (num_txs_history self')) < baseline_size self'
    /\ baseline_ready self' = baseline_ready self
    /\ stats self' = stats self.
Proof.
  intros H. eexists. eexists. split; [apply step_collecting; exact H|].
  repeat split. rewrite appended_length. exact H.
Qed.

End States.

(** ** Scoring *)

Section Scoring.

Import AnomalyDetector Run.

Variable block_index : Z.
Variable features : Features.t.
Variable self : t.

Lemma z_scores_loop_map (s : t) (names : list Feature.t) :
  (forall k, z_of s features k = Ok (z_value s features k)) ->
  z_scores_loop s features names =
  Ok (map (fun k => (Feature.name k, z_value s features k)) names).
Proof.
  intros H. induction names as [|k rest IH]; [reflexivity|].
  cbn [z_scores_loop map]. fold (z_of s features k).
  rewrite H, IH. reflexivity.
Qed.

Lemma scoring_z_defined :
  Scoring self -> forall k, z_of self features k = Ok (z_value self features k).
Proof.
  intros (_ & _ & Hstats) k. unfold z_value.
  destruct (Hstats k) as (m & s & E).
  assert (Hz : exists z, z_of self features k = Ok z).
  { unfold z_of. rewrite E. cbn [Stats.mean Stats.std].
    rewrite z_score_defined. destruct (Float.eqb s Float.zero); eauto. }
  destruct Hz as [z ->]. reflexivity.
Qed.

(** A scoring call on which no z-score exceeds the threshold. *)
Lemma step_scoring_normal :
  Scoring self ->
  anomalous_features (z_threshold self)
    (map (fun k => (Feature.name k, z_value self features k)) Feature.all) = [] ->
  process_block block_index features self =
  (Ok {| Decision.block_index := block_index;
         Decision.is_anomaly := false;
         Decision.feature_z_scores :=
           map (fun k => (Feature.name k, z_value self features k)) Feature.all;
         Decision.reason := Text "Within normal range" |},
   appended self features).
Proof.
  intros HS Hnone. pose proof (scoring_z_defined HS) as Hz.
  destruct HS as (Hready & Hlen & Hstats).
  rewrite process_block_unfold. cbv zeta.
  rewrite appended_length.
  change (baseline_size (appended self features)) with (baseline_size self).
  change (baseline_ready (appended self features)) with (baseline_ready self).
  change (z_threshold (appended self features)) with (z_threshold self).
  destruct (Z.ltb_spec (Z.of_nat (List.length (num_txs_history self)) + 1)
                       (baseline_size self)); [lia|].
  rewrite Hready. cbn [negb].
  rewrite (z_scores_loop_map (appended self features) Feature.all)
    by (intros k; apply (Hz k)).
  change (z_value (appended self features) features)
    with (z_value self features).
  cbv beta iota delta [Ok]. rewrite Hnone. reflexivity.
Qed.

Lemma scoring_appended : Scoring self -> Scoring (appended self features).
Proof.
  intros (Hready & Hlen & Hstats). repeat split.
  - exact Hready.
  - rewrite appended_length.
    change (baseline_size (appended self features)) with (baseline_size self). lia.
  - exact Hstats.
Qed.

(** C3. With the baseline computed, [process_block] returns a decision
    whose z-scores are those of the four features against the baseline,
    and whose [is_anomaly] is true if and only if the absolute value of at
    least one of them is strictly greater than [z_threshold]; this holds
    for every threshold. *)
Theorem scoring_flags_anomaly_iff_some_z_exceeds :
  Scoring self ->
  exists d,
    process_block block_index features self = (Ok d, appended self features)
    /\ (forall k, z_of self features k = Ok (z_value self features k))
    /\ Decision.feature_z_scores d =
         map (fun k => (Feature.name k, z_value self features k)) Feature.all
    /\ (Decision.is_anomaly d = true <->
         exists k, Float.gtb (Float.abs (z_value self features k)) (z_threshold self)
                   = true)
    /\ Scoring (appended self features).
Proof.
  intros HS. pose proof (scoring_z_defined HS) as Hz.
  pose proof (scoring_appended HS) as HS'.
  destruct HS as (Hready & Hlen & Hstats).
  rewrite process_block_unfold. cbv zeta.
  rewrite appended_length.
  change (baseline_size (appended self features)) with (baseline_size self).
  change (baseline_ready (appended self features)) with (baseline_ready self).
  change (z_threshold (appended self features)) with (z_threshold self).
  destruct (Z.ltb_spec (Z.of_nat (List.length (num_txs_history self)) + 1)
                       (baseline_size self)); [lia|].
  rewrite Hready. cbn [negb].
  rewrite (z_scores_loop_map (appended self features) Feature.all)
    by (intros k; apply (Hz k)).
  change (z_value (appended self features) features)
    with (z_value self features).
  cbv beta iota delta [Ok].
  unfold anomalous_features, Feature.all. cbn [map filter snd fst].
  destruct (Float.gtb (Float.abs (z_value self features Feature.num_txs))
                      (z_threshold self)) eqn:E1;
  destruct (Float.gtb (Float.abs (z_value self features Feature.total_amount))
                      (z_threshold self)) eqn:E2;
  destruct (Float.gtb (Float.abs (z_value self features Feature.max_amount))
                      (z_threshold self)) eqn:E3;
  destruct (Float.gtb (Float.abs (z_value self features Feature.time_delta))
                      (z_threshold self)) eqn:E4;
  cbn [map fst];
  (eexists; split; [reflexivity|]; split; [exact Hz|]; split; [reflexivity|];
   split; [|exact HS']; cbn [Decision.is_anomaly]; split;
   [ intros Ha; try discriminate Ha;
     first [ exists Feature.num_txs; exact E1
           | exists Feature.total_amount; exact E2
           | exists Feature.max_amount; exact E3
           | exists Feature.time_delta; exact E4 ]
   | intros [[] Hk]; congruence ]).
Qed.

End Scoring.

(** ** Sequences of calls *)

Section Runs.

Import AnomalyDetector Run.

Lemma run_cons (c : call) (rest : list call) (self : t) :
  run (c :: rest) self =
  (fst (process_block (fst c) (snd c) self)
     :: fst (run rest (snd (process_block (fst c) (snd c) self))),
   snd (run rest (snd (process_block (fst c) (snd c) self)))).
Proof.
  destruct c as [i f]. cbn [run fst snd].
  destruct (process_block i f self) as [r s1]. cbn [fst snd].
  destruct (run rest s1) as [rs s2]. reflexivity.
Qed.

Lemma run_app (l1 l2 : list call) (self : t) :
  run (l1 ++ l2) self =
  (fst (run l1 self) ++ fst (run l2 (snd (run l1 self))),
   snd (run l2 (snd (run l1 self)))).
Proof.
  revert self. induction l1 as [|c l1 IH]; intros self.
  - cbn. now destruct (run l2 self).
  - rewrite <- app_comm_cons, !run_cons, IH. reflexivity.
Qed.

Lemma run_outcomes_length (calls : list call) (self : t) :
  List.length (fst (run calls self)) = List.length calls.
Proof.
  revert self. induction calls as [|c calls IH]; intros self; [reflexivity|].
  rewrite run_cons. cbn [fst List.length]. now rewrite IH.
Qed.

(** A run appends the feature values of its calls, in order, to the
    histories and leaves size and threshold alone. *)
Lemma run_frame (calls : list call) (self : t) :
  (forall k, history (snd (run calls self)) k
             = history self k ++ column k (map snd calls))
  /\ baseline_size (snd (run calls self)) = baseline_size self
  /\ z_threshold (snd (run calls self)) = z_threshold self.
Proof.
  revert self. induction calls as [|c calls IH]; intros self.
  - cbn. split; [intros k; now rewrite app_nil_r|split; reflexivity].
  - rewrite run_cons. cbn [snd].
    destruct (process_block_frame (fst c) (snd c) self) as (Fh & Fb & Fz).
    destruct (IH (snd (process_block (fst c) (snd c) self))) as (Ih & Ib & Iz).
    split; [|split; congruence].
    intros k. rewrite Ih, Fh, <- app_assoc. reflexivity.
Qed.

Lemma run_fresh_history (calls : list call) (bs : Z) (thr : Float.float)
      (k : Feature.t) :
  history (snd (run calls (init bs thr))) k = column k (map snd calls).
Proof.
  destruct (run_frame calls (init bs thr)) as (H & _). rewrite H.
  destruct k; reflexivity.
Qed.

Lemma run_fresh_length (calls : list call) (bs : Z) (thr : Float.float) :
  List.length (num_txs_history (snd (run calls (init bs thr))))
  = List.length calls.
Proof.
  change (num_txs_history (snd (run calls (init bs thr))))
    with (history (snd (run calls (init bs thr))) Feature.num_txs).
  rewrite run_fresh_history. unfold column. now rewrite !length_map.
Qed.

Lemma run_fresh_size (calls : list call) (bs : Z) (thr : Float.float) :
  baseline_size (snd (run calls (init bs thr))) = bs.
Proof. destruct (run_frame calls (init bs thr)) as (_ & H & _). exact H. Qed.

(** C8. Every call to [process_block] appends exactly one value to each
    of the four histories, in every state and whether it returns or
    raises; so after [N] calls each history is [N] longer, and on a fresh
    detector it has length exactly [N]. *)
Theorem history_length_is_number_of_calls
        (calls : list call) (self : t) (k : Feature.t) :
  (forall block_index features,
      history (snd (process_block block_index features self)) k
      = history self k ++ [Features.get features k])
  /\ List.length (history (snd (run calls self)) k)
     = (List.length (history self k) + List.length calls)%nat
  /\ (forall baseline_size z_threshold,
        List.length (history (snd (run calls (init baseline_size z_threshold))) k)
        = List.length calls).
Proof.
  split; [|split].
  - intros i f. apply (process_block_frame i f self).
  - destruct (run_frame calls self) as (H & _). rewrite H, length_app.
    unfold column. now rewrite !length_map.
  - intros bs thr. destruct (run_frame calls (init bs thr)) as (H & _).
    rewrite H, length_app. unfold column. rewrite !length_map.
    destruct k; reflexivity.
Qed.

End Runs.

(** ** The one-shot baseline *)

Section Baseline.

Import AnomalyDetector Run.

Variable bs : Z.
Variable thr : Float.float.
Variable base : Feature.t -> Float.float * Float.float.
Hypothesis bs_positive : 1 <= bs.

Let n : nat := Z.to_nat bs.

(** The detector after a run on a fresh one: short of [bs] calls nothing
    is computed; from [bs] calls on the table holds the statistics of the
    first [bs] feature vectors. *)
Lemma run_phases (calls : list call) :
  ((n <= List.length calls)%nat ->
   forall k, mean_std (column k (map snd (firstn n calls))) = Ok (base k)) ->
  let s := snd (run calls (init bs thr)) in
  ((List.length calls < n)%nat ->
     baseline_ready s = false /\ stats s = Stats.empty)
  /\ ((n <= List.length calls)%nat ->
        baseline_ready s = true /\ stats s = baseline_stats base).
Proof.
  induction calls as [|c calls IH] using rev_ind; intros Hbase; cbv zeta.
  - cbn. split; [auto|]. intros H. unfold n in *. lia.
  - rewrite run_app. cbn [snd]. rewrite run_cons. cbn [run snd].
    pose proof (run_fresh_length calls bs thr) as Hlen.
    pose proof (run_fresh_size calls bs thr) as Fb.
    pose proof (run_fresh_history calls bs thr) as Fh.
    set (s := snd (run calls (init bs thr))) in *.
    rewrite length_app. cbn [List.length].
    assert (IH' : ((List.length calls < n)%nat ->
                   baseline_ready s = false /\ stats s = Stats.empty)
                  /\ ((n <= List.length calls)%nat ->
                      baseline_ready s = true /\ stats s = baseline_stats base)).
    { apply IH. intros Hn k.
      rewrite <- (Hbase ltac:(rewrite length_app; lia) k).
      rewrite firstn_app.
      replace (n - List.length calls)%nat with 0%nat by lia.
      cbn [firstn]. now rewrite app_nil_r. }
    destruct IH' as [IHlt IHge].
    destruct (Nat.lt_ge_cases (List.length calls + 1) n) as [Hc|Hc].
    + (* still collecting *)
      rewrite step_collecting
        by (unfold Collecting; rewrite Hlen, Fb; unfold n in Hc; lia).
      cbn [snd]. split; [|lia]. intros _.
      change (baseline_ready (appended s (snd c))) with (baseline_ready s).
      change (stats (appended s (snd c))) with (stats s).
      apply IHlt. lia.
    + destruct (Nat.eq_dec (List.length calls + 1) n) as [He|He].
      * (* the call that reaches [bs] *)
        destruct IHlt as [Hr Hs]; [lia|].
        rewrite (step_baseline (fst c) (snd c) s base).
        -- cbn [snd]. split; [lia|]. intros _. split; reflexivity.
        -- rewrite Hlen, Fb. unfold n in He. lia.
        -- exact Hr.
        -- intros k. rewrite Fh.
           rewrite <- (Hbase ltac:(rewrite length_app; cbn; lia) k).
           rewrite firstn_all2 by (rewrite length_app; cbn; lia).
           unfold column. rewrite !map_app. reflexivity.
      * (* afterwards *)
        destruct IHge as [Hr Hs]; [lia|].
        rewrite step_scoring_state
          by (try exact Hr; rewrite Hlen, Fb; unfold n in Hc; lia).
        split; [lia|]. intros _. split; [exact Hr|exact Hs].
Qed.

(** From the call that computes the baseline on, the detector is in the
    scoring state. *)
Lemma run_reaches_scoring (calls : list call) :
  (n <= List.length calls)%nat ->
  (forall k, mean_std (column k (map snd (firstn n calls))) = Ok (base k)) ->
  Scoring (snd (run calls (init bs thr))).
Proof.
  intros Hlong Hbase.
  destruct (run_phases calls) as [_ Hge]; [intros _; exact Hbase|].
  destruct (Hge Hlong) as [Hr Hs]. split; [exact Hr|]. split.
  - rewrite run_fresh_size, run_fresh_length. unfold n in Hlong. lia.
  - intros k. rewrite Hs. destruct k; eexists; eexists; reflexivity.
Qed.

Lemma mean_std_inv (lst : list Float.float) (m s : Float.float) :
  mean_std lst = Ok (m, s) ->
  Statistics.mean lst = Ok m
  /\ (if 1 <? Z.of_nat (List.length lst)
      then Statistics.stdev lst = Ok s else s = Float.zero).
Proof.
  unfold mean_std, Ok, Raise.
  destruct (Statistics.mean lst) as [e|m']; [discriminate|].
  destruct (1 <? Z.of_nat (List.length lst)).
  - destruct (Statistics.stdev lst) as [e|s']; [discriminate|].
    intros [= -> ->]. split; reflexivity.
  - intros [= -> ->]. split; reflexivity.
Qed.

(** C1, for a baseline call on which the four [mean_std] computations
    return.  On a fresh detector with [baseline_size >= 1] the baseline
    then becomes defined on the call that brings the history to length
    [baseline_size], and on no other:
    before it [baseline_ready] is false and every mean and standard
    deviation is undefined; on it the detector stores, for each feature,
    the mean and the sample standard deviation of the whole history with
    the value just appended (the standard deviation being 0.0 when that
    history has length 1) and returns a decision with [is_anomaly] false
    and no z-scores; after it the table is the same after every later
    call. *)
Theorem baseline_computed_exactly_once (calls : list call) :
  (n <= List.length calls)%nat ->
  (forall k, mean_std (column k (map snd (firstn n calls))) = Ok (base k)) ->
  (forall j, (j < n)%nat ->
     baseline_ready (state_after bs thr calls j) = false
     /\ stats (state_after bs thr calls j) = Stats.empty)
  /\ (forall block_index features,
        nth_error calls (n - 1) = Some (block_index, features) ->
        nth_error (fst (run calls (init bs thr))) (n - 1)
        = Some (Ok {| Decision.block_index := block_index;
                      Decision.is_anomaly := false;
                      Decision.feature_z_scores := [];
                      Decision.reason :=
                        Text "Baseline just computed; no detection yet" |}))
  /\ (forall j, (n <= j)%nat ->
        baseline_ready (state_after bs thr calls j) = true
        /\ stats (state_after bs thr calls j) = baseline_stats base)
  /\ (forall k,
        List.length (column k (map snd (firstn n calls))) = n
        /\ Statistics.mean (column k (map snd (firstn n calls))) = Ok (fst (base k))
        /\ (1 < bs ->
            Statistics.stdev (column k (map snd (firstn n calls))) = Ok (snd (base k)))
        /\ (bs = 1 -> snd (base k) = Float.zero)).
Proof.
  intros Hlong Hbase.
  assert (Hn : (1 <= n)%nat) by (unfold n; lia).
  split; [|split; [|split]].
  - intros j Hj. unfold state_after.
    apply (run_phases (firstn j calls)).
    + rewrite length_firstn. lia.
    + rewrite length_firstn. lia.
  - intros i f Hnth.
    destruct (nth_error_split calls (n - 1) Hnth) as (l1 & l2 & -> & Hl1).
    rewrite run_app, run_cons. cbn [fst snd].
    rewrite nth_error_app2 by (rewrite run_outcomes_length; lia).
    rewrite run_outcomes_length, Hl1, Nat.sub_diag. cbn [nth_error].
    f_equal.
    pose proof (run_fresh_length l1 bs thr) as Hlen.
    pose proof (run_fresh_size l1 bs thr) as Fb.
    pose proof (run_fresh_history l1 bs thr) as Fh.
    destruct (run_phases l1) as [Hlt _]; [intros; lia|].
    set (s := snd (run l1 (init bs thr))) in *.
    destruct Hlt as [Hr _]; [lia|].
    rewrite (step_baseline i f s base); [reflexivity| |exact Hr|].
    + rewrite Hlen, Fb. unfold n in Hl1. lia.
    + intros k. rewrite Fh. rewrite <- (Hbase k).
      rewrite firstn_app, firstn_all2 by lia.
      replace (n - List.length l1)%nat with 1%nat by lia.
      cbn [firstn]. unfold column. rewrite !map_app. reflexivity.
  - intros j Hj. unfold state_after.
    apply (run_phases (firstn j calls)).
    + intros _ k. rewrite firstn_firstn.
      replace (Nat.min n j) with n by lia. apply Hbase.
    + rewrite length_firstn. lia.
  - intros k. pose proof (Hbase k) as Hk.
    assert (Hcol : List.length (column k (map snd (firstn n calls))) = n).
    { unfold column. rewrite !length_map, length_firstn. lia. }
    destruct (base k) as [m s]. apply mean_std_inv in Hk.
    rewrite Hcol in Hk. destruct Hk as [Hm Hs]. cbn [fst snd].
    split; [exact Hcol|]. split; [exact Hm|].
    destruct (Z.ltb_spec 1 (Z.of_nat n)); unfold n in *; split; intros; try lia; exact Hs.
Qed.

End Baseline.

(** ** The end-to-end scenario *)

Section EndToEnd.

Import AnomalyDetector Run Scenario.

Lemma calibrated_state (z_threshold : Float.float) :
  calibrated z_threshold =
  set_baseline_ready
    (set_stats
       (appended (appended (appended (init 3 z_threshold) (features 2 10 5 0))
                           (features 2 10 5 1))
                 (features 2 10 5 1))
       (baseline_stats baseline))
    true.
Proof. vm_compute. reflexivity. Qed.

Lemma calibrated_scoring (z_threshold : Float.float) :
  Scoring (calibrated z_threshold).
Proof.
  rewrite calibrated_state. repeat split.
  - vm_compute. discriminate.
  - intros []; eexists; eexists; reflexivity.
Qed.

Lemma fourth_z_values (z_threshold : Float.float) (time_delta : Z) :
  time_delta = 0 \/ time_delta = 1 ->
  map (fun k => (Feature.name k,
                 z_value (calibrated z_threshold) (fourth time_delta) k))
      Feature.all
  = Decision.feature_z_scores (fourth_decision time_delta).
Proof.
  rewrite calibrated_state. intros [-> | ->]; vm_compute; reflexivity.
Qed.

(** Nothing exceeds a threshold that is at least |z_zero|. *)
Lemma below_threshold (z_threshold z : Float.float) :
  Float.leb (Float.abs z_zero) z_threshold = true ->
  Float.leb (Float.abs z) (Float.abs z_zero) = true ->
  Float.gtb (Float.abs z) z_threshold = false.
Proof.
  intros Hthr Hz. unfold Float.gtb. apply leb_not_ltb.
  now apply leb_trans with (Float.abs z_zero).
Qed.

(** C2, with the time_delta z-score as the code computes it.  With
    [baseline_size = 3], the third of the three blocks computes the
    baseline: means 2, 10, 5 and 2/3 rounded to binary64 (0.667 to three
    decimals), standard deviation 0 for the three constant features and
    the rounded square root of 1/3 for time_delta.  A fourth block with
    the same num_txs, total_amount and max_amount and with time_delta 0 or
    1 gets z-score 0.0 on the three constant features and a non-zero
    z-score on time_delta (about -1.155 for 0 and 0.577 for 1), and
    [is_anomaly] is false for every [z_threshold] of at least
    1.1547005383792515, the defaults 3.0 and 1.5 among them. *)
Theorem scenario_baseline_and_fourth_block
        (z_threshold : Float.float) (time_delta : Z) :
  time_delta = 0 \/ time_delta = 1 ->
  Float.leb (Float.abs z_zero) z_threshold = true ->
  nth_error (fst (run first_three (init 3 z_threshold))) 2
  = Some (Ok (early_decision 3 "Baseline just computed; no detection yet"))
  /\ stats (calibrated z_threshold) = baseline_stats baseline
  /\ (forall k, mean_std (history (calibrated z_threshold) k) = Ok (baseline k))
  /\ Float.of_Q (2 # 3) = Some two_thirds
  /\ Float.ltb (Float.decimal 6665 4) two_thirds = true
  /\ Float.ltb two_thirds (Float.decimal 6675 4) = true
  /\ fst (process_block 4 (fourth time_delta) (calibrated z_threshold))
     = Ok (fourth_decision time_delta)
  /\ Float.eqb (z_time_delta time_delta) Float.zero = false.
Proof.
  intros Htd Hthr.
  split; [vm_compute; reflexivity|].
  split; [rewrite calibrated_state; reflexivity|].
  split; [rewrite calibrated_state; intros []; vm_compute; reflexivity|].
  split; [vm_compute; reflexivity|].
  split; [vm_compute; reflexivity|].
  split; [vm_compute; reflexivity|].
  split; [|destruct Htd as [-> | ->]; vm_compute; reflexivity].
  rewrite (step_scoring_normal 4 (fourth time_delta) (calibrated z_threshold)
             (calibrated_scoring z_threshold)).
  - cbn [fst]. rewrite (fourth_z_values z_threshold time_delta Htd). reflexivity.
  - rewrite (fourth_z_values z_threshold time_delta Htd).
    replace (AnomalyDetector.z_threshold (calibrated z_threshold))
      with z_threshold by (rewrite calibrated_state; reflexivity).
    unfold anomalous_features, fourth_decision.
    cbn [Decision.feature_z_scores filter snd].
    rewrite (below_threshold z_threshold Float.zero Hthr)
      by (vm_compute; reflexivity).
    rewrite (below_threshold z_threshold (z_time_delta time_delta) Hthr)
      by (destruct Htd as [-> | ->]; vm_compute; reflexivity).
    reflexivity.
Qed.

(** C2 as stated fails: on a fourth block equal to any of the first
    three, the time_delta z-score is not 0.0. *)
Lemma fourth_block_time_delta_z_score_not_zero :
  (fst (process_block 4 (features 2 10 5 1) (calibrated (Float.of_Z 3)))
   = Ok (fourth_decision 1)
   /\ forallb (fun fz => Float.eqb (snd fz) Float.zero)
              (Decision.feature_z_scores (fourth_decision 1)) = false)
  /\ (fst (process_block 4 (features 2 10 5 0) (calibrated (Float.of_Z 3)))
      = Ok (fourth_decision 0)
      /\ forallb (fun fz => Float.eqb (snd fz) Float.zero)
                 (Decision.feature_z_scores (fourth_decision 0)) = false).
Proof. repeat split; vm_compute; reflexivity. Qed.

Lemma scenario_baseline_and_fourth_block_witness :
  (1 = 0 \/ 1 = 1)
  /\ Float.leb (Float.abs z_zero) (Float.decimal 15 1) = true
  /\ fst (process_block 4 (fourth 1) (calibrated (Float.decimal 15 1)))
     = Ok (fourth_decision 1).
Proof.
  split; [right; reflexivity|]. split; [vm_compute; reflexivity|].
  apply (scenario_baseline_and_fourth_block (Float.decimal 15 1) 1).
  - right. reflexivity.
  - vm_compute. reflexivity.
Defined.

End EndToEnd.

(** ** The reason text on a collecting call *)

Section CollectingReason.

Import AnomalyDetector Run Scenario.

(** C6 as stated fails: the reason of a collecting call is not the text
    "insufficient data". *)
Lemma collecting_reason_is_not_insufficient_data :
  ~ (forall block_index features self,
        Z.of_nat (List.length (num_txs_history self)) + 1 < baseline_size self ->
        exists d self',
          process_block block_index features self = (Ok d, self')
          /\ Decision.is_anomaly d = false
          /\ Decision.feature_z_scores d = []
          /\ Decision.reason d = Text "insufficient data").
Proof.
  intros H.
  destruct (H 1 (features 2 10 5 0) (init 3 (Float.of_Z 3)))
    as (d & self' & E & _ & _ & Hreason).
  - cbn. lia.
  - rewrite step_collecting in E by (unfold Collecting; cbn; lia).
    injection E as <- _. discriminate Hreason.
Qed.

End CollectingReason.

(** ** Concrete instances *)

Section Instances.

Import AnomalyDetector Run Scenario.

Lemma collecting_call_returns_not_enough_data_witness :
  Z.of_nat (List.length (num_txs_history (init 3 (Float.of_Z 3)))) + 1
  < baseline_size (init 3 (Float.of_Z 3))
  /\ exists d self',
       process_block 1 (features 2 10 5 0) (init 3 (Float.of_Z 3)) = (Ok d, self')
       /\ Decision.reason d = Text "Not enough data for baseline".
Proof.
  assert (H : Z.of_nat (List.length (num_txs_history (init 3 (Float.of_Z 3)))) + 1
              < baseline_size (init 3 (Float.of_Z 3))) by reflexivity.
  split; [exact H|].
  destruct (collecting_call_returns_not_enough_data
              1 (features 2 10 5 0) (init 3 (Float.of_Z 3)) H)
    as (d & self' & E & _ & _ & _ & R & _).
  exists d, self'. split; assumption.
Defined.

Lemma scoring_flags_anomaly_iff_some_z_exceeds_witness :
  Scoring (calibrated (Float.of_Z 3))
  /\ exists d,
       process_block 4 (fourth 1) (calibrated (Float.of_Z 3))
       = (Ok d, appended (calibrated (Float.of_Z 3)) (fourth 1))
       /\ (Decision.is_anomaly d = true <->
           exists k, Float.gtb (Float.abs (z_value (calibrated (Float.of_Z 3))
                                                   (fourth 1) k))
                               (z_threshold (calibrated (Float.of_Z 3))) = true).
Proof.
  split; [apply calibrated_scoring|].
  destruct (scoring_flags_anomaly_iff_some_z_exceeds
              4 (fourth 1) (calibrated (Float.of_Z 3))
              (calibrated_scoring (Float.of_Z 3)))
    as (d & E & _ & _ & A & _).
  exists d. split; assumption.
Defined.

Lemma negative_time_delta_violates_rule3_witness :
  Float.ltb (Features.time_delta (features 1 10 5 (-1))) Float.zero = true
  /\ Float.leb Float.zero
               (RuleBasedSecurityChecker.min_time_delta
                  RuleBasedSecurityChecker.default) = true
  /\ has_rule 3 (RuleDecision.violations
                   (RuleBasedSecurityChecker.check_rules
                      RuleBasedSecurityChecker.default (features 1 10 5 (-1))))
     = true.
Proof.
  split; [reflexivity|]. split; [reflexivity|].
  apply (negative_time_delta_violates_rule3
           RuleBasedSecurityChecker.default (features 1 10 5 (-1)));
    reflexivity.
Defined.

Lemma check_rules_spec_witness :
  Float.eqb (Features.time_delta (features 1 6000 2500 0)) Float.zero = true
  /\ has_rule 3 (RuleDecision.violations
                   (RuleBasedSecurityChecker.check_rules
                      RuleBasedSecurityChecker.default (features 1 6000 2500 0)))
     = false.
Proof.
  split; [reflexivity|].
  apply (check_rules_spec RuleBasedSecurityChecker.default (features 1 6000 2500 0)).
  reflexivity.
Defined.

Lemma z_score_total_and_guarded_witness :
  Float.gtb sqrt_third Float.zero = true
  /\ _z_score (Float.of_Z 1) (Some two_thirds) (Some sqrt_third)
     = Ok (Float.ieee_div (Float.sub (Float.of_Z 1) two_thirds) sqrt_third).
Proof.
  split; [reflexivity|].
  apply (z_score_total_and_guarded (Float.of_Z 1) two_thirds sqrt_third).
  reflexivity.
Defined.

Lemma extract_features_spec_witness :
  transactions block_one <> []
  /\ (forall a, In a (map amount (transactions block_one)) -> a <> S754_nan)
  /\ In (Features.max_amount (extract_features block_one (Some genesis)))
        (map amount (transactions block_one))
  /\ forall a, In a (map amount (transactions block_one)) ->
       Float.leb a (Features.max_amount (extract_features block_one (Some genesis)))
       = true.
Proof.
  assert (Hne : transactions block_one <> []) by discriminate.
  assert (Hnan : forall a, In a (map amount (transactions block_one)) ->
                           a <> S754_nan).
  { intros a [<-|[<-|[]]]; discriminate. }
  split; [exact Hne|]. split; [exact Hnan|].
  destruct (extract_features_spec block_one (Some genesis))
    as (_ & _ & _ & Hmax & _).
  destruct (Hmax Hne) as [Hin Hup].
  split; [exact Hin|exact (Hup Hnan)].
Defined.

Lemma baseline_computed_exactly_once_witness :
  1 <= 3
  /\ (Z.to_nat 3 <= List.length four_calls)%nat
  /\ (forall k,
        mean_std (column k (map snd (firstn (Z.to_nat 3)
                                       four_calls)))
        = Ok (baseline k))
  /\ baseline_ready (state_after 3 (Float.of_Z 3) four_calls 4)
     = true
  /\ stats (state_after 3 (Float.of_Z 3) four_calls 4)
     = baseline_stats baseline.
Proof.
  assert (H1 : 1 <= 3) by discriminate.
  assert (H2 : (Z.to_nat 3 <= List.length four_calls)%nat)
    by (cbn; repeat constructor).
  assert (H3 : forall k,
             mean_std (column k (map snd (firstn (Z.to_nat 3)
                                            four_calls)))
             = Ok (baseline k))
    by (intros []; vm_compute; reflexivity).
  split; [exact H1|]. split; [exact H2|]. split; [exact H3|].
  destruct (baseline_computed_exactly_once
              3 (Float.of_Z 3) baseline H1 four_calls H2 H3)
    as (_ & _ & Hafter & _).
  apply (Hafter 4%nat). cbn. repeat constructor.
Defined.

End Instances.

(** ** The chain *)

Section ChainProperties.

Import Blockchain.

Variable sha256_json : Z -> Float.float -> list Transaction -> string -> Z -> string.

Local Abbreviation compute_hash := (compute_hash sha256_json).
Local Abbreviation new_block := (new_block sha256_json).
Local Abbreviation check_from := (check_from sha256_json).
Local Abbreviation is_chain_valid := (is_chain_valid sha256_json).
Local Abbreviation add_block := (add_block sha256_json).
Local Abbreviation add_blocks := (add_blocks sha256_json).
Local Abbreviation block_ok := (block_ok sha256_json).
Local Abbreviation linked := (linked sha256_json).

Lemma new_block_hash (index : Z) (timestamp : Float.float)
      (transactions : list Transaction) (previous_hash : string) :
  hash (new_block index timestamp transactions previous_hash)
  = compute_hash (new_block index timestamp transactions previous_hash).
Proof. reflexivity. Qed.

(** The outcome of the two tests on one block. *)
Lemma check_from_cons (previous current : Block) (rest : list Block) :
  check_from previous (current :: rest) =
  if negb (String.eqb (hash current) (compute_hash current))
  then (false, [InvalidHash (index current)])
  else if negb (String.eqb (previous_hash current) (hash previous))
       then (false, [BrokenLink (index previous) (index current)])
       else check_from current rest.
Proof. reflexivity. Qed.

Lemma check_from_linked (previous : Block) (rest : list Block) :
  linked previous rest -> check_from previous rest = (true, []).
Proof.
  revert previous. induction rest as [|current rest IH]; intros previous H.
  - reflexivity.
  - destruct H as [[Hh Hl] Hrest]. rewrite check_from_cons.
    apply String.eqb_eq in Hh. apply String.eqb_eq in Hl.
    rewrite Hh, Hl. cbn [negb]. now apply IH.
Qed.

Lemma check_from_true (previous : Block) (rest : list Block) :
  fst (check_from previous rest) = true -> linked previous rest.
Proof.
  revert previous. induction rest as [|current rest IH]; intros previous H.
  - exact I.
  - rewrite check_from_cons in H.
    destruct (String.eqb_spec (hash current) (compute_hash current)) as [Hh|Hh];
      cbn [negb] in H; [|discriminate H].
    destruct (String.eqb_spec (previous_hash current) (hash previous)) as [Hl|Hl];
      cbn [negb] in H; [|discriminate H].
    split; [split; assumption|]. now apply IH.
Qed.

Lemma last_cons (rest : list Block) (a d : Block) :
  List.last (a :: rest) d = List.last rest a.
Proof.
  revert a d. induction rest as [|c rest IH]; intros a d; [reflexivity|].
  change (List.last (a :: c :: rest) d) with (List.last (c :: rest) d).
  now rewrite (IH c d), (IH c a).
Qed.

Lemma linked_app (previous : Block) (rest : list Block) (b : Block) :
  linked previous (rest ++ [b])
  <-> linked previous rest /\ block_ok (List.last rest previous) b.
Proof.
  revert previous. induction rest as [|current rest IH]; intros previous.
  - cbn. tauto.
  - cbn [app Blockchain.linked]. rewrite IH, last_cons. tauto.
Qed.

Lemma linked_nth (previous : Block) (rest : list Block) :
  linked previous rest <->
  forall i p c,
    nth_error (previous :: rest) i = Some p ->
    nth_error (previous :: rest) (S i) = Some c -> block_ok p c.
Proof.
  revert previous. induction rest as [|current rest IH]; intros previous.
  - split; [|intros; exact I]. intros _ i p c _ H. destruct i; discriminate H.
  - cbn [Blockchain.linked]. rewrite IH. split.
    + intros [H0 H] [|i] p c Hp Hc.
      * injection Hp as <-. injection Hc as <-. exact H0.
      * apply (H i); assumption.
    + intros H. split.
      * apply (H 0%nat); reflexivity.
      * intros i p c Hp Hc. apply (H (S i)); assumption.
Qed.

Lemma check_from_false (previous : Block) (rest : list Block) :
  fst (check_from previous rest) = false ->
  exists i p c,
    nth_error (previous :: rest) i = Some p
    /\ nth_error (previous :: rest) (S i) = Some c
    /\ (forall j p' c', (j < i)%nat ->
          nth_error (previous :: rest) j = Some p' ->
          nth_error (previous :: rest) (S j) = Some c' -> block_ok p' c')
    /\ ((hash c <> compute_hash c
         /\ snd (check_from previous rest) = [InvalidHash (index c)])
        \/ (hash c = compute_hash c /\ previous_hash c <> hash p
            /\ snd (check_from previous rest) = [BrokenLink (index p) (index c)])).
Proof.
  revert previous. induction rest as [|current rest IH]; intros previous H.
  - discriminate H.
  - rewrite check_from_cons in H |- *.
    destruct (String.eqb_spec (hash current) (compute_hash current)) as [Hh|Hh];
      cbn [negb] in *.
    + destruct (String.eqb_spec (previous_hash current) (hash previous)) as [Hl|Hl];
        cbn [negb] in *.
      * destruct (IH current H) as (i & p & c & Hp & Hc & Hbefore & Hmsg).
        exists (S i), p, c.
        split; [exact Hp|]. split; [exact Hc|]. split; [|exact Hmsg].
        intros [|j] p' c' Hj Hp' Hc'.
        -- injection Hp' as <-. injection Hc' as <-. split; assumption.
        -- apply (Hbefore j); [lia|assumption|assumption].
      * exists 0%nat, previous, current.
        split; [reflexivity|]. split; [reflexivity|].
        split; [intros j ? ? Hj; lia|]. right. auto.
    + exists 0%nat, previous, current.
      split; [reflexivity|]. split; [reflexivity|].
      split; [intros j ? ? Hj; lia|]. left. auto.
Qed.

(** [is_chain_valid] returns [True], and then prints nothing, exactly when
    every block after the first stores the digest of its own contents and
    the stored hash of the block before it. *)
Theorem is_chain_valid_iff (self : t) :
  (fst (is_chain_valid self) = true <->
   forall i p c,
     nth_error (chain self) i = Some p ->
     nth_error (chain self) (S i) = Some c ->
     hash c = compute_hash c /\ previous_hash c = hash p)
  /\ (fst (is_chain_valid self) = true -> snd (is_chain_valid self) = []).
Proof.
  unfold Blockchain.is_chain_valid. destruct (chain self) as [|first rest].
  - split; [|reflexivity]. split; [|reflexivity].
    intros _ i p c H. destruct i; discriminate H.
  - split.
    + rewrite <- (linked_nth first rest). split.
      * apply check_from_true.
      * intros H. now rewrite check_from_linked.
    + intros H. apply check_from_true in H. now rewrite check_from_linked.
Qed.

(** When [is_chain_valid] returns [False] it has printed exactly one
    message, about the first block that fails a test: every earlier block
    passes both, and the digest test comes before the link test. *)
Theorem is_chain_valid_reports_first_failure (self : t) :
  fst (is_chain_valid self) = false ->
  exists i p c,
    nth_error (chain self) i = Some p
    /\ nth_error (chain self) (S i) = Some c
    /\ (forall j p' c', (j < i)%nat ->
          nth_error (chain self) j = Some p' ->
          nth_error (chain self) (S j) = Some c' ->
          hash c' = compute_hash c' /\ previous_hash c' = hash p')
    /\ ((hash c <> compute_hash c
         /\ snd (is_chain_valid self) = [InvalidHash (index c)])
        \/ (hash c = compute_hash c /\ previous_hash c <> hash p
            /\ snd (is_chain_valid self) = [BrokenLink (index p) (index c)])).
Proof.
  unfold Blockchain.is_chain_valid. destruct (chain self) as [|first rest].
  - discriminate.
  - apply check_from_false.
Qed.

Lemma add_block_nonempty (now : Float.float) (transactions : list Transaction)
      (self : t) (first : Block) (rest : list Block) :
  chain self = first :: rest ->
  add_block now transactions self =
  Some ({| chain := chain self
                    ++ [new_block (Z.of_nat (List.length (chain self))) now
                                  transactions (hash (List.last rest first))] |},
        new_block (Z.of_nat (List.length (chain self))) now
                  transactions (hash (List.last rest first))).
Proof.
  intros E. unfold Blockchain.add_block, last_block. rewrite E. reflexivity.
Qed.

Lemma add_blocks_spec (adds : list (Float.float * list Transaction)) :
  forall (self : t) (first : Block) (rest : list Block),
    chain self = first :: rest ->
    exists self' blocks,
      add_blocks adds self = Some (self', blocks)
      /\ chain self' = chain self ++ blocks
      /\ map transactions blocks = map snd adds
      /\ map timestamp blocks = map fst adds
      /\ map index blocks
         = map Z.of_nat (seq (List.length (chain self)) (List.length adds))
      /\ (linked first rest -> linked first (rest ++ blocks)).
Proof.
  induction adds as [|[now txs] adds IH]; intros self first rest E.
  - exists self, []. cbn. rewrite !app_nil_r. repeat split; auto.
  - cbn [Blockchain.add_blocks].
    rewrite (add_block_nonempty now txs self first rest E).
    set (b := new_block (Z.of_nat (List.length (chain self))) now txs
                        (hash (List.last rest first))).
    destruct (IH {| chain := chain self ++ [b] |} first (rest ++ [b]))
      as (self' & blocks & -> & Hc & Ht & Hs & Hi & Hl).
    { cbn [chain]. now rewrite E. }
    exists self', (b :: blocks). cbn [chain] in *.
    split; [reflexivity|].
    split; [rewrite Hc, <- app_assoc; reflexivity|].
    split; [cbn; now rewrite Ht|].
    split; [cbn; now rewrite Hs|].
    split.
    + cbn [map seq List.length]. rewrite Hi, length_app. cbn [List.length].
      now rewrite Nat.add_1_r.
    + intros H. replace (rest ++ b :: blocks) with ((rest ++ [b]) ++ blocks)
        by (rewrite <- app_assoc; reflexivity).
      apply Hl. apply linked_app. split; [exact H|]. split; reflexivity.
Qed.

(** A chain made by [Blockchain()] and any number of [add_block] calls
    passes [is_chain_valid], which prints nothing; no call raises. *)
Theorem built_chain_is_valid (now : Float.float)
        (adds : list (Float.float * list Transaction)) :
  exists self blocks,
    add_blocks adds (init sha256_json now) = Some (self, blocks)
    /\ is_chain_valid self = (true, []).
Proof.
  destruct (add_blocks_spec adds (init sha256_json now)
              (new_block 0 now [] "0") [] eq_refl)
    as (self & blocks & E & Hc & _ & _ & _ & Hl).
  exists self, blocks. split; [exact E|].
  unfold Blockchain.is_chain_valid. rewrite Hc. cbn [init create_genesis_block chain app].
  apply check_from_linked. apply Hl. exact I.
Qed.

(** The chain after [Blockchain()] and the [add_block] calls is the
    genesis block followed by the blocks the calls returned, one per call:
    block [i] has index [i], the clock reading and the transactions of its
    call, and [last_block] is the block returned last. *)
Theorem built_chain_structure (now : Float.float)
        (adds : list (Float.float * list Transaction)) :
  exists self blocks,
    add_blocks adds (init sha256_json now) = Some (self, blocks)
    /\ chain self = new_block 0 now [] "0" :: blocks
    /\ List.length blocks = List.length adds
    /\ map index (chain self)
       = map Z.of_nat (seq 0 (S (List.length adds)))
    /\ map timestamp (chain self) = now :: map fst adds
    /\ map transactions (chain self) = [] :: map snd adds
    /\ last_block self = Some (List.last blocks (new_block 0 now [] "0")).
Proof.
  destruct (add_blocks_spec adds (init sha256_json now)
              (new_block 0 now [] "0") [] eq_refl)
    as (self & blocks & E & Hc & Ht & Hs & Hi & _).
  exists self, blocks. cbn [init create_genesis_block chain app List.length] in *.
  split; [exact E|]. split; [exact Hc|].
  split; [rewrite <- (length_map transactions), Ht; apply length_map|].
  rewrite Hc. cbn [map seq]. rewrite Hi, Ht, Hs.
  repeat split. unfold last_block. now rewrite Hc.
Qed.

Lemma valid_linked (first : Block) (rest : list Block) :
  fst (is_chain_valid {| chain := first :: rest |}) = true <-> linked first rest.
Proof.
  unfold Blockchain.is_chain_valid. cbn [chain]. split.
  - apply check_from_true.
  - intros H. now rewrite check_from_linked.
Qed.

(** [is_chain_valid] never computes the digest of the first block and
    never reads its [previous_hash]: two chains that differ in their first
    block only get the same verdict as long as that block's stored [hash]
    is the same. *)
Theorem first_block_contents_are_not_checked (first first' : Block) (rest : list Block) :
  hash first' = hash first ->
  fst (is_chain_valid {| chain := first' :: rest |})
  = fst (is_chain_valid {| chain := first :: rest |}).
Proof.
  intros H. unfold Blockchain.is_chain_valid. cbn [chain].
  destruct rest as [|current rest]; [reflexivity|].
  rewrite !check_from_cons, H.
  destruct (negb (String.eqb (hash current) (compute_hash current)));
    [reflexivity|].
  destruct (negb (String.eqb (previous_hash current) (hash first)));
    reflexivity.
Qed.

(** The last block can be rewritten: on a chain that passes, replacing the
    last block by a freshly constructed one with any index, timestamp and
    transactions, and the same [previous_hash], passes again. *)
Theorem rewritten_last_block_passes (blocks : list Block) (last : Block)
        (index : Z) (timestamp : Float.float) (transactions : list Transaction) :
  blocks <> [] ->
  fst (is_chain_valid {| chain := blocks ++ [last] |}) = true ->
  is_chain_valid
    {| chain := blocks ++ [new_block index timestamp transactions (previous_hash last)] |}
  = (true, []).
Proof.
  destruct blocks as [|first rest]; [congruence|]. intros _ H.
  rewrite <- app_comm_cons in *. apply valid_linked in H.
  apply linked_app in H. destruct H as [Hrest [_ Hlink]].
  unfold Blockchain.is_chain_valid. cbn [chain].
  apply check_from_linked. apply linked_app. split; [exact Hrest|].
  split; [reflexivity|exact Hlink].
Qed.

(** Changes to a block that has a predecessor or a successor are caught.
    On a chain that passes: a block after the first that is replaced by
    one whose stored hash is not the digest of its contents makes
    [is_chain_valid] return [False]; so does a block with a successor that
    is replaced by one with another stored hash. *)
Theorem tampering_is_detected (before after : list Block) (b b' : Block) :
  fst (is_chain_valid {| chain := before ++ b :: after |}) = true ->
  (before <> [] -> hash b' <> compute_hash b' ->
   fst (is_chain_valid {| chain := before ++ b' :: after |}) = false)
  /\ (after <> [] -> hash b' <> hash b ->
      fst (is_chain_valid {| chain := before ++ b' :: after |}) = false).
Proof.
  intros Hvalid. split.
  - intros Hne Hh.
    destruct (fst (is_chain_valid {| chain := before ++ b' :: after |})) eqn:E;
      [|reflexivity].
    exfalso. destruct before as [|first rest]; [congruence|].
    rewrite <- app_comm_cons in E. apply valid_linked in E.
    rewrite linked_nth in E.
    destruct (E (List.length rest) (List.last rest first) b') as [Hd _].
    + clear. revert first. induction rest as [|c rest IH]; intros first;
        [reflexivity|]. rewrite last_cons. cbn [List.length nth_error]. apply IH.
    + cbn [nth_error]. rewrite nth_error_app2, Nat.sub_diag by lia. reflexivity.
    + exact (Hh Hd).
  - intros Hne Hh. destruct after as [|c after]; [congruence|].
    destruct (fst (is_chain_valid {| chain := before ++ b' :: c :: after |})) eqn:E;
      [|reflexivity].
    exfalso.
    assert (Hnth : forall x,
               (forall first rest, before ++ x :: c :: after = first :: rest ->
                                   linked first rest) ->
               previous_hash c = hash x).
    { intros x Hl.
      destruct (before ++ x :: c :: after) as [|first rest] eqn:Ech.
      - destruct before; discriminate Ech.
      - specialize (Hl first rest eq_refl). rewrite linked_nth in Hl.
        rewrite <- Ech in Hl.
        destruct (Hl (List.length before) x c) as [_ Hlk].
        + rewrite nth_error_app2, Nat.sub_diag by lia. reflexivity.
        + replace (S (List.length before)) with (List.length before + 1)%nat by lia.
          rewrite nth_error_app2 by lia.
          replace (List.length before + 1 - List.length before)%nat with 1%nat by lia.
          reflexivity.
        + exact Hlk. }
    assert (H1 : previous_hash c = hash b').
    { apply Hnth. intros first rest Ech. apply valid_linked. now rewrite <- Ech. }
    assert (H2 : previous_hash c = hash b).
    { apply Hnth. intros first rest Ech. apply valid_linked. now rewrite <- Ech. }
    congruence.
Qed.

End ChainProperties.

(** ** More on the rule-based checker *)

Section RulesMore.

Import RuleBasedSecurityChecker.

(** Which rules are recorded, rule by rule. *)
Lemma has_rule_check_rules (self : t) (features : Features.t) (n : nat) :
  has_rule n (RuleDecision.violations (check_rules self features)) =
  (Nat.eqb n 1
   && Float.gtb (Features.max_amount features) (max_single_tx_amount self))
  || (Nat.eqb n 2
      && Float.gtb (Features.total_amount features) (max_block_total_amount self))
  || (Nat.eqb n 3
      && (negb (Float.eqb (Features.time_delta features) Float.zero)
          && Float.ltb (Features.time_delta features) (min_time_delta self))).
Proof.
  rewrite check_rules_violations.
  destruct (Float.gtb (Features.max_amount features) (max_single_tx_amount self)),
           (Float.gtb (Features.total_amount features) (max_block_total_amount self)),
           (negb (Float.eqb (Features.time_delta features) Float.zero)
            && Float.ltb (Features.time_delta features) (min_time_delta self));
    destruct n as [|[|[|[|n]]]]; reflexivity.
Qed.

(** A NaN never violates a rule: a rule whose measured feature or whose
    threshold is NaN records nothing. *)
Theorem nan_never_violates_a_rule (self : t) (features : Features.t) :
  let violations := RuleDecision.violations (check_rules self features) in
  (Features.max_amount features = S754_nan \/ max_single_tx_amount self = S754_nan ->
   has_rule 1 violations = false)
  /\ (Features.total_amount features = S754_nan
      \/ max_block_total_amount self = S754_nan ->
      has_rule 2 violations = false)
  /\ (Features.time_delta features = S754_nan \/ min_time_delta self = S754_nan ->
      has_rule 3 violations = false).
Proof.
  cbv zeta. rewrite !has_rule_check_rules. cbn [Nat.eqb andb orb].
  rewrite !orb_false_r. unfold Float.gtb. repeat split.
  - intros [-> | ->]; [apply ltb_nan_r | apply ltb_nan_l].
  - intros [-> | ->]; [apply ltb_nan_r | apply ltb_nan_l].
  - intros [-> | ->]; [reflexivity | rewrite ltb_nan_r; apply andb_false_r].
Qed.

(** Loosening the thresholds never adds a violation: with larger amount
    limits and a smaller minimal interval, every rule recorded is also
    recorded under the stricter thresholds, and so is the alert. *)
Theorem looser_thresholds_record_fewer_violations
        (strict loose : t) (features : Features.t) :
  Float.leb (max_single_tx_amount strict) (max_single_tx_amount loose) = true ->
  Float.leb (max_block_total_amount strict) (max_block_total_amount loose) = true ->
  Float.leb (min_time_delta loose) (min_time_delta strict) = true ->
  (forall n,
      has_rule n (RuleDecision.violations (check_rules loose features)) = true ->
      has_rule n (RuleDecision.violations (check_rules strict features)) = true)
  /\ (RuleDecision.rule_alert (check_rules loose features) = true ->
      RuleDecision.rule_alert (check_rules strict features) = true).
Proof.
  intros H1 H2 H3.
  assert (R1 : Float.gtb (Features.max_amount features) (max_single_tx_amount loose)
               = true ->
               Float.gtb (Features.max_amount features) (max_single_tx_amount strict)
               = true).
  { unfold Float.gtb. intros H. exact (leb_ltb_trans _ _ _ H1 H). }
  assert (R2 : Float.gtb (Features.total_amount features)
                         (max_block_total_amount loose) = true ->
               Float.gtb (Features.total_amount features)
                         (max_block_total_amount strict) = true).
  { unfold Float.gtb. intros H. exact (leb_ltb_trans _ _ _ H2 H). }
  assert (R3 : negb (Float.eqb (Features.time_delta features) Float.zero)
               && Float.ltb (Features.time_delta features) (min_time_delta loose)
               = true ->
               negb (Float.eqb (Features.time_delta features) Float.zero)
               && Float.ltb (Features.time_delta features) (min_time_delta strict)
               = true).
  { rewrite !andb_true_iff. intros [Hz H]. split; [exact Hz|].
    exact (ltb_leb_trans _ _ _ H H3). }
  split.
  - intros n. rewrite !has_rule_check_rules, !orb_true_iff, !andb_true_iff.
    rewrite !andb_true_iff in R3. tauto.
  - rewrite !check_rules_alert, !orb_true_iff. tauto.
Qed.

(** Two blocks with the same finite timestamp give [time_delta] 0.0, and
    the checker then records no Rule3 violation whatever [min_time_delta]
    is: the exemption meant for the first block also covers blocks made in
    the same clock reading. *)
Theorem equal_timestamps_escape_rule3
        (self : t) (current_block previous_block : Block) :
  Float.is_finite (timestamp current_block) = true ->
  timestamp previous_block = timestamp current_block ->
  let features :=
    AnomalyDetector.extract_features current_block (Some previous_block) in
  Features.time_delta features = Float.zero
  /\ has_rule 3 (RuleDecision.violations (check_rules self features)) = false.
Proof.
  intros Hfin Heq. cbv zeta.
  assert (Htd : Features.time_delta
                  (AnomalyDetector.extract_features current_block (Some previous_block))
                = Float.zero).
  { unfold AnomalyDetector.extract_features. cbn [Features.time_delta].
    rewrite Heq. now apply sub_diag. }
  split; [exact Htd|].
  rewrite has_rule_check_rules, Htd. reflexivity.
Qed.

End RulesMore.

(** ** More on scoring *)

Section ScoringMore.

Import AnomalyDetector Run.

Lemma feature_name_inj (k k' : Feature.t) :
  Feature.name k = Feature.name k' -> k = k'.
Proof. destruct k, k'; intros H; try reflexivity; discriminate H. Qed.

Lemma anomalous_features_map (thr : Float.float) (zv : Feature.t -> Float.float)
      (names : list Feature.t) :
  anomalous_features thr (map (fun k => (Feature.name k, zv k)) names)
  = map Feature.name (filter (fun k => Float.gtb (Float.abs (zv k)) thr) names).
Proof.
  unfold anomalous_features. induction names as [|k names IH]; [reflexivity|].
  cbn [map filter snd]. destruct (Float.gtb (Float.abs (zv k)) thr); cbn [map fst];
    now rewrite IH.
Qed.

Lemma anomalous_features_exceeding (self : t) (features : Features.t) :
  anomalous_features (z_threshold self) (z_scores_of self features)
  = map Feature.name (exceeding self features).
Proof. apply anomalous_features_map. Qed.

(** A scoring call, in full. *)
Lemma step_scoring (block_index : Z) (features : Features.t) (self : t) :
  Scoring self ->
  process_block block_index features self =
  (Ok (scored_decision block_index (z_threshold self) (z_scores_of self features)),
   appended self features).
Proof.
  intros HS. pose proof (scoring_z_defined features self HS) as Hz.
  destruct HS as (Hready & Hlen & Hstats).
  rewrite process_block_unfold. cbv zeta.
  rewrite appended_length.
  change (baseline_size (appended self features)) with (baseline_size self).
  change (baseline_ready (appended self features)) with (baseline_ready self).
  change (z_threshold (appended self features)) with (z_threshold self).
  destruct (Z.ltb_spec (Z.of_nat (List.length (num_txs_history self)) + 1)
                       (baseline_size self)); [lia|].
  rewrite Hready. cbn [negb].
  rewrite (z_scores_loop_map features (appended self features) Feature.all)
    by (intros k; apply (Hz k)).
  change (z_value (appended self features) features) with (z_value self features).
  cbv beta iota delta [Ok]. unfold scored_decision, z_scores_of.
  destruct (anomalous_features _ _); reflexivity.
Qed.

(** A scoring call returns the block index it was given, the z-scores of
    the four features in the order num_txs, total_amount, max_amount,
    time_delta, and a reason that goes with [is_anomaly]: "Within normal
    range" when no z-score exceeds the threshold, else the names of exactly
    the exceeding features, in that same order, with the threshold. *)
Theorem scoring_reason_names_exceeding_features
        (block_index : Z) (features : Features.t) (self : t) :
  Scoring self ->
  exists d,
    fst (process_block block_index features self) = Ok d
    /\ Decision.block_index d = block_index
    /\ map fst (Decision.feature_z_scores d) = map Feature.name Feature.all
    /\ ((exceeding self features = []
         /\ Decision.is_anomaly d = false
         /\ Decision.reason d = Text "Within normal range")
        \/ (exceeding self features <> []
            /\ Decision.is_anomaly d = true
            /\ Decision.reason d
               = AnomalousFeatures (map Feature.name (exceeding self features))
                                   (z_threshold self))).
Proof.
  intros HS. rewrite (step_scoring block_index features self HS). cbn [fst].
  eexists. split; [reflexivity|].
  unfold scored_decision. rewrite anomalous_features_exceeding.
  destruct (exceeding self features) as [|k ks];
    cbn [map Decision.block_index Decision.feature_z_scores Decision.is_anomaly
         Decision.reason].
  - split; [reflexivity|]. split; [unfold z_scores_of; now rewrite map_map|].
    left. repeat split.
  - split; [reflexivity|]. split; [unfold z_scores_of; now rewrite map_map|].
    right. repeat split. discriminate.
Qed.

Lemma zero_std_z_value (features : Features.t) (self : t) (k : Feature.t)
      (s : Float.float) :
  Scoring self ->
  Stats.std (Stats.get (stats self) k) = Some s ->
  Float.eqb s Float.zero = true ->
  z_value self features k = Float.zero.
Proof.
  intros (_ & _ & Hstats) Hs Hz. destruct (Hstats k) as (m & s' & E).
  rewrite E in Hs. cbn [Stats.std] in Hs. injection Hs as ->.
  unfold z_value, z_of. rewrite E. cbn [Stats.mean Stats.std].
  rewrite z_score_defined, Hz. reflexivity.
Qed.

Lemma in_exceeding (self : t) (features : Features.t) (k : Feature.t) :
  In (Feature.name k) (map Feature.name (exceeding self features)) ->
  Float.gtb (Float.abs (z_value self features k)) (z_threshold self) = true.
Proof.
  rewrite in_map_iff. intros (k' & Hn & Hin). apply feature_name_inj in Hn.
  subst k'. unfold exceeding in Hin. apply filter_In in Hin. tauto.
Qed.

(** A feature whose baseline standard deviation is 0.0 gets z-score 0.0
    whatever its value, and with a threshold that is not negative it is
    never named in the reason of a decision. *)
Theorem zero_std_feature_is_never_flagged
        (block_index : Z) (features : Features.t) (self : t) (k : Feature.t)
        (s : Float.float) :
  Scoring self ->
  Stats.std (Stats.get (stats self) k) = Some s ->
  Float.eqb s Float.zero = true ->
  Float.ltb (z_threshold self) Float.zero = false ->
  exists d,
    fst (process_block block_index features self) = Ok d
    /\ In (Feature.name k, Float.zero) (Decision.feature_z_scores d)
    /\ forall names threshold,
         Decision.reason d = AnomalousFeatures names threshold ->
         ~ In (Feature.name k) names.
Proof.
  intros HS Hs Hz Hthr.
  pose proof (zero_std_z_value features self k s HS Hs Hz) as Hzero.
  rewrite (step_scoring block_index features self HS). cbn [fst].
  eexists. split; [reflexivity|].
  unfold scored_decision. rewrite anomalous_features_exceeding.
  assert (Hin : In (Feature.name k, Float.zero) (z_scores_of self features)).
  { unfold z_scores_of. rewrite <- Hzero. apply in_map_iff. exists k.
    split; [reflexivity|]. destruct k; cbn; tauto. }
  assert (Hnot : ~ In (Feature.name k) (map Feature.name (exceeding self features))).
  { intros H. apply in_exceeding in H. rewrite Hzero in H.
    unfold Float.gtb in H. cbn [Float.abs SFabs Float.zero] in H.
    change (S754_zero false) with Float.zero in H. congruence. }
  destruct (exceeding self features) as [|k0 ks] eqn:E;
    cbn [map Decision.block_index Decision.feature_z_scores Decision.is_anomaly
         Decision.reason] in *.
  - split; [exact Hin|]. intros names t H. discriminate H.
  - split; [exact Hin|]. intros names t H.
    injection H as <- _. exact Hnot.
Qed.

(** A NaN is never flagged.  With a NaN threshold no decision has
    [is_anomaly] true; with a threshold that is not negative, a feature
    whose value is NaN is never named in the reason. *)
Theorem nan_is_never_flagged
        (block_index : Z) (features : Features.t) (self : t) :
  Scoring self ->
  exists d,
    fst (process_block block_index features self) = Ok d
    /\ (z_threshold self = S754_nan -> Decision.is_anomaly d = false)
    /\ (forall k names threshold,
          Features.get features k = S754_nan ->
          Float.ltb (z_threshold self) Float.zero = false ->
          Decision.reason d = AnomalousFeatures names threshold ->
          ~ In (Feature.name k) names).
Proof.
  intros HS. rewrite (step_scoring block_index features self HS). cbn [fst].
  eexists. split; [reflexivity|].
  unfold scored_decision. rewrite anomalous_features_exceeding.
  assert (Hnan : z_threshold self = S754_nan -> exceeding self features = []).
  { intros E. unfold exceeding, Float.gtb. rewrite E. reflexivity. }
  assert (Hval : forall k, Features.get features k = S754_nan ->
                           Float.ltb (z_threshold self) Float.zero = false ->
                           ~ In (Feature.name k)
                               (map Feature.name (exceeding self features))).
  { intros k Hk Hthr H. apply in_exceeding in H.
    destruct HS as (_ & _ & Hstats). destruct (Hstats k) as (m & s & E).
    unfold z_value, z_of in H. rewrite E, Hk in H. cbn [Stats.mean Stats.std] in H.
    rewrite z_score_defined in H. unfold Float.gtb in H.
    destruct (Float.eqb s Float.zero).
    - cbn [Float.abs SFabs Float.zero Ok] in H.
      change (S754_zero false) with Float.zero in H. congruence.
    - cbn in H. rewrite ltb_nan_r in H. discriminate H. }
  destruct (exceeding self features) as [|k0 ks] eqn:E;
    cbn [map Decision.block_index Decision.feature_z_scores Decision.is_anomaly
         Decision.reason] in *.
  - split; [reflexivity|]. intros k names t _ _ H. discriminate H.
  - split; [intros Ht; specialize (Hnan Ht); discriminate Hnan|].
    intros k names t Hk Hthr H.
    injection H as <- _. exact (Hval k Hk Hthr).
Qed.

End ScoringMore.

(** ** When the baseline cannot be computed *)

Section BaselineFailure.

Import AnomalyDetector Run.

(** What [mean_std] can raise on a non-empty list. *)
Lemma mean_std_raises (lst : list Float.float) (e : exn) :
  lst <> [] -> mean_std lst = Raise e -> e = OverflowError \/ e = AttributeError.
Proof.
  intros Hne. unfold mean_std, Statistics.mean, Statistics.stdev, Raise, Ok.
  destruct lst as [|x rest]; [congruence|].
  destruct (forallb Float.is_finite (x :: rest)).
  - destruct (Float.of_Q _); [|intros [= <-]; now left].
    destruct (1 <? Z.of_nat (List.length (x :: rest))) eqn:E1; [|discriminate].
    destruct (Z.ltb_spec (Z.of_nat (List.length (x :: rest))) 2) as [H2|H2];
      [apply Z.ltb_lt in E1; lia|].
    unfold Statistics._float_sqrt_of_frac, Raise, Ok.
    destruct (if (0 <=? _) then _ else _) as [numerator denominator].
    destruct (Float.int_truediv _ _); [discriminate|].
    intros [= <-]. now left.
  - destruct (1 <? Z.of_nat (List.length (x :: rest))) eqn:E1; [|discriminate].
    destruct (Z.ltb_spec (Z.of_nat (List.length (x :: rest))) 2) as [H2|H2];
      [apply Z.ltb_lt in E1; lia|].
    intros [= <-]. now right.
Qed.

(** With an infinity or a NaN among two or more values, [stdev] raises. *)
Lemma mean_std_non_finite (lst : list Float.float) :
  forallb Float.is_finite lst = false -> (2 <= List.length lst)%nat ->
  mean_std lst = Raise AttributeError.
Proof.
  intros Hnf Hlen. unfold mean_std, Statistics.mean, Statistics.stdev, Raise, Ok.
  destruct lst as [|x rest]; [discriminate Hnf|]. rewrite Hnf.
  destruct (Z.ltb_spec 1 (Z.of_nat (List.length (x :: rest)))) as [H1|H1]; [|lia].
  destruct (Z.ltb_spec (Z.of_nat (List.length (x :: rest))) 2) as [H2|H2]; [lia|].
  reflexivity.
Qed.

(** [_compute_baseline] either stores all four results and sets
    [baseline_ready], or raises what the first failing [mean_std] raises
    and leaves [baseline_ready] alone. *)
Lemma compute_baseline_cases (self : t) :
  (exists base,
      (forall k, mean_std (history self k) = Ok (base k))
      /\ _compute_baseline self
         = (Ok tt, set_baseline_ready (set_stats self (baseline_stats base)) true))
  \/ (exists e self' k,
         _compute_baseline self = (Raise e, self')
         /\ baseline_ready self' = baseline_ready self
         /\ mean_std (history self k) = Raise e).
Proof.
  destruct (mean_std (history self Feature.num_txs)) as [e1|[m1 s1]] eqn:E1.
  { right. exists e1. eexists. exists Feature.num_txs.
    unfold _compute_baseline, baseline_of, bind, lift, get, modify.
    cbv beta iota zeta delta [Ok Raise history] in *. rewrite E1.
    split; [reflexivity|]. split; reflexivity. }
  destruct (mean_std (history self Feature.total_amount)) as [e2|[m2 s2]] eqn:E2.
  { right. exists e2. eexists. exists Feature.total_amount.
    unfold _compute_baseline, baseline_of, bind, lift, get, modify.
    cbv beta iota zeta delta [Ok Raise history] in *. rewrite E1.
    cbn [set_stats num_txs_history total_amount_history max_amount_history
         time_delta_history baseline_size z_threshold stats baseline_ready].
    rewrite E2. split; [reflexivity|]. split; reflexivity. }
  destruct (mean_std (history self Feature.max_amount)) as [e3|[m3 s3]] eqn:E3.
  { right. exists e3. eexists. exists Feature.max_amount.
    unfold _compute_baseline, baseline_of, bind, lift, get, modify.
    cbv beta iota zeta delta [Ok Raise history] in *. rewrite E1.
    cbn [set_stats num_txs_history total_amount_history max_amount_history
         time_delta_history baseline_size z_threshold stats baseline_ready].
    rewrite E2.
    cbn [set_stats num_txs_history total_amount_history max_amount_history
         time_delta_history baseline_size z_threshold stats baseline_ready].
    rewrite E3. split; [reflexivity|]. split; reflexivity. }
  destruct (mean_std (history self Feature.time_delta)) as [e4|[m4 s4]] eqn:E4.
  { right. exists e4. eexists. exists Feature.time_delta.
    unfold _compute_baseline, baseline_of, bind, lift, get, modify.
    cbv beta iota zeta delta [Ok Raise history] in *. rewrite E1.
    cbn [set_stats num_txs_history total_amount_history max_amount_history
         time_delta_history baseline_size z_threshold stats baseline_ready].
    rewrite E2.
    cbn [set_stats num_txs_history total_amount_history max_amount_history
         time_delta_history baseline_size z_threshold stats baseline_ready].
    rewrite E3.
    cbn [set_stats num_txs_history total_amount_history max_amount_history
         time_delta_history baseline_size z_threshold stats baseline_ready].
    rewrite E4. split; [reflexivity|]. split; reflexivity. }
  left.
  exists (fun k => match k with
                   | Feature.num_txs => (m1, s1)
                   | Feature.total_amount => (m2, s2)
                   | Feature.max_amount => (m3, s3)
                   | Feature.time_delta => (m4, s4)
                   end).
  assert (H : forall k, mean_std (history self k)
                        = Ok (match k with
                              | Feature.num_txs => (m1, s1)
                              | Feature.total_amount => (m2, s2)
                              | Feature.max_amount => (m3, s3)
                              | Feature.time_delta => (m4, s4)
                              end)) by (intros []; assumption).
  split; [exact H|]. now apply compute_baseline_ok.
Qed.

(** The first call of the baseline branch, in both outcomes. *)
Lemma step_baseline_cases (block_index : Z) (features : Features.t) (self : t) :
  baseline_size self <= Z.of_nat (List.length (num_txs_history self)) + 1 ->
  baseline_ready self = false ->
  (exists self',
      process_block block_index features self
      = (Ok (early_decision block_index "Baseline just computed; no detection yet"),
         self')
      /\ baseline_ready self' = true)
  \/ (exists e self' k,
         process_block block_index features self = (Raise e, self')
         /\ baseline_ready self' = false
         /\ mean_std (history self k ++ [Features.get features k]) = Raise e).
Proof.
  intros Hlen Hready. rewrite process_block_unfold. cbv zeta.
  rewrite appended_length.
  change (baseline_size (appended self features)) with (baseline_size self).
  change (baseline_ready (appended self features)) with (baseline_ready self).
  destruct (Z.ltb_spec (Z.of_nat (List.length (num_txs_history self)) + 1)
                       (baseline_size self)); [lia|].
  rewrite Hready. cbn [negb].
  destruct (compute_baseline_cases (appended self features))
    as [(base & _ & ->)|(e & self' & k & -> & Hr & Hk)].
  - left. eexists. split; reflexivity.
  - right. exists e, self', k. split; [reflexivity|]. split.
    + rewrite Hr. exact Hready.
    + rewrite <- appended_history. exact Hk.
Qed.

(** A baseline computation that fails is tried again.  When a call raises
    while the baseline is due and not ready, the exception is the
    [OverflowError] or the [AttributeError] of a [statistics] call,
    [baseline_ready] stays false and the appended values stay in the
    histories: the next call computes the baseline again, over one more
    value than [baseline_size] allows for. *)
Theorem failed_baseline_is_retried
        (block_index : Z) (features : Features.t) (self : t) (e : exn) :
  baseline_ready self = false ->
  baseline_size self <= Z.of_nat (List.length (num_txs_history self)) + 1 ->
  fst (process_block block_index features self) = Raise e ->
  let self' := snd (process_block block_index features self) in
  (e = OverflowError \/ e = AttributeError)
  /\ baseline_ready self' = false
  /\ (forall k, history self' k = history self k ++ [Features.get features k])
  /\ baseline_size self' < Z.of_nat (List.length (num_txs_history self')) + 1.
Proof.
  intros Hready Hlen Hraise. cbv zeta.
  destruct (process_block_frame block_index features self) as (Fh & Fb & _).
  destruct (step_baseline_cases block_index features self Hlen Hready)
    as [(self' & E & _)|(e' & self' & k & E & Hr & Hk)];
    rewrite E in *; cbn [fst snd] in *; [discriminate Hraise|].
  injection Hraise as <-.
  split; [|split; [exact Hr|split; [exact Fh|]]].
  - apply (mean_std_raises (history self k ++ [Features.get features k])); [|exact Hk].
    destruct (history self k); discriminate.
  - rewrite Fb. pose proof (Fh Feature.num_txs) as F1. cbn [history] in F1.
    rewrite F1, length_app. cbn [List.length]. lia.
Qed.

Lemma poisoned_step (block_index : Z) (features : Features.t) (self : t) :
  Poisoned self ->
  raised (fst (process_block block_index features self))
  /\ Poisoned (snd (process_block block_index features self)).
Proof.
  intros (Hready & Hlen & k & Hk).
  destruct (process_block_frame block_index features self) as (Fh & Fb & _).
  assert (Hbad : mean_std (history self k ++ [Features.get features k])
                 = Raise AttributeError).
  { apply mean_std_non_finite.
    - rewrite forallb_app, Hk. reflexivity.
    - rewrite length_app. cbn [List.length].
      destruct (history self k); [discriminate Hk|cbn; lia]. }
  destruct (step_baseline_cases block_index features self Hlen Hready)
    as [(self' & E & _)|(e' & self' & k' & E & Hr & Hk')].
  - (* the call cannot succeed *)
    exfalso. revert E. rewrite process_block_unfold. cbv zeta.
    rewrite appended_length.
    change (baseline_size (appended self features)) with (baseline_size self).
    change (baseline_ready (appended self features)) with (baseline_ready self).
    destruct (Z.ltb_spec (Z.of_nat (List.length (num_txs_history self)) + 1)
                         (baseline_size self)); [lia|].
    rewrite Hready. cbn [negb].
    destruct (compute_baseline_cases (appended self features))
      as [(base & Hb & ->)|(e & s2 & k2 & -> & _ & _)]; [|discriminate].
    specialize (Hb k). rewrite appended_history, Hbad in Hb. discriminate Hb.
  - rewrite E in *. cbn [fst snd] in *. split; [exists e'; reflexivity|].
    split; [exact Hr|]. split.
    + rewrite Fb. pose proof (Fh Feature.num_txs) as F1. cbn [history] in F1.
      rewrite F1, length_app. cbn [List.length]. lia.
    + exists k. rewrite Fh, forallb_app, Hk. reflexivity.
Qed.

(** An infinity or a NaN that is in a history when the baseline is due
    stops the detector for good (with the [statistics] module of CPython
    3.11): that call and every later call raises, and the baseline is never
    computed. *)
Theorem non_finite_history_raises_forever (calls : list call) (self : t) :
  Poisoned self ->
  Forall raised (fst (run calls self))
  /\ baseline_ready (snd (run calls self)) = false.
Proof.
  revert self. induction calls as [|c calls IH]; intros self HP.
  - cbn. split; [constructor|]. now destruct HP.
  - rewrite run_cons. cbn [fst snd].
    destruct (poisoned_step (fst c) (snd c) self HP) as [Hr HP'].
    destruct (IH _ HP') as [Hrs Hb]. split; [constructor; assumption|exact Hb].
Qed.

(** [_compute_baseline] does not test the length it says it assumes: on
    empty histories it raises [StatisticsError] and changes nothing. *)
Theorem compute_baseline_on_empty_history (self : t) :
  num_txs_history self = [] ->
  _compute_baseline self = (Raise StatisticsError, self).
Proof.
  intros E. unfold _compute_baseline, baseline_of, bind, lift, get, modify.
  cbv beta iota zeta delta [Ok Raise history]. rewrite E. reflexivity.
Qed.

Lemma blind_step (block_index : Z) (features : Features.t) (self : t) :
  Blind self ->
  not_flagged (fst (process_block block_index features self))
  /\ Blind (snd (process_block block_index features self)).
Proof.
  intros (HS & Hstd & Hthr).
  assert (Hex : exceeding self features = []).
  { unfold exceeding, Feature.all. cbn [filter].
    assert (Hk : forall k,
               Float.gtb (Float.abs (z_value self features k)) (z_threshold self)
               = false).
    { intros k. destruct (Hstd k) as (s & Hs & Hz).
      rewrite (zero_std_z_value features self k s HS Hs Hz). exact Hthr. }
    now rewrite !Hk. }
  rewrite (step_scoring block_index features self HS). cbn [fst snd]. split.
  - eexists. split; [reflexivity|]. unfold scored_decision.
    rewrite anomalous_features_exceeding, Hex. reflexivity.
  - split; [now apply scoring_appended|]. split; [exact Hstd|exact Hthr].
Qed.

Lemma blind_run (calls : list call) (self : t) :
  Blind self -> Forall not_flagged (fst (run calls self)).
Proof.
  revert self. induction calls as [|c calls IH]; intros self HB.
  - constructor.
  - rewrite run_cons. cbn [fst].
    destruct (blind_step (fst c) (snd c) self HB) as [Hn HB'].
    constructor; [exact Hn|]. now apply IH.
Qed.

(** With [baseline_size] 1 (or less) the baseline is computed on the very
    first call from one value per feature, every standard deviation is
    0.0, and with a threshold that is not negative no call ever returns
    [is_anomaly] true. *)
Theorem single_sample_baseline_never_flags
        (baseline_size : Z) (z_threshold : Float.float) (calls : list call)
        (first : call) (means : Feature.t -> Float.float) :
  baseline_size <= 1 ->
  Float.ltb z_threshold Float.zero = false ->
  (forall k, Statistics.mean [Features.get (snd first) k] = Ok (means k)) ->
  Forall not_flagged (fst (run (first :: calls) (init baseline_size z_threshold)))
  /\ forall k,
       Stats.get (stats (snd (run (first :: calls) (init baseline_size z_threshold)))) k
       = {| Stats.mean := Some (means k); Stats.std := Some Float.zero |}.
Proof.
  intros Hbs Hthr Hmean. rewrite run_cons.
  assert (Hstep : process_block (fst first) (snd first) (init baseline_size z_threshold)
                  = (Ok (early_decision (fst first)
                                        "Baseline just computed; no detection yet"),
                     set_baseline_ready
                       (set_stats (appended (init baseline_size z_threshold) (snd first))
                                  (baseline_stats (fun k => (means k, Float.zero))))
                       true)).
  { apply step_baseline.
    - cbn. lia.
    - reflexivity.
    - intros k. unfold mean_std.
      replace (history (init baseline_size z_threshold) k) with (@nil Float.float)
        by (destruct k; reflexivity).
      cbn [app List.length]. rewrite Hmean. reflexivity. }
  rewrite Hstep. cbn [fst snd].
  set (s1 := set_baseline_ready _ true).
  assert (HB : Blind s1).
  { split; [|split].
    - split; [reflexivity|]. split; [cbn; lia|].
      intros []; eexists; eexists; reflexivity.
    - intros []; eexists; (split; [reflexivity|reflexivity]).
    - exact Hthr. }
  split.
  - constructor; [eexists; split; reflexivity|]. now apply blind_run.
  - intros k. clear Hstep.
    assert (Hstats : forall cs s, Blind s -> stats (snd (run cs s)) = stats s).
    { induction cs as [|c cs IH]; intros s HBs; [reflexivity|].
      rewrite run_cons. cbn [snd].
      destruct (blind_step (fst c) (snd c) s HBs) as [_ HB'].
      rewrite (IH _ HB').
      destruct HBs as (HS & _).
      now rewrite (step_scoring (fst c) (snd c) s HS). }
    rewrite (Hstats calls s1 HB). destruct k; reflexivity.
Qed.

End BaselineFailure.

(** ** The simulation loop *)

Section ExperimentProperties.

Import Experiment.

Variable sha256_json : Z -> Float.float -> list Transaction -> string -> Z -> string.

Local Abbreviation iteration := (iteration sha256_json).
Local Abbreviation loop := (loop sha256_json).
Local Abbreviation run_experiment := (run_experiment sha256_json).
Local Abbreviation next_block := (next_block sha256_json).
Local Abbreviation next_features := (next_features sha256_json).
Local Abbreviation next_state := (next_state sha256_json).
Local Abbreviation report_of := (report_of sha256_json).
Local Abbreviation Good := (Good sha256_json).
Local Abbreviation start := (start sha256_json).

(** Every decision [process_block] returns carries the index it was given. *)
Lemma process_block_index (block_index : Z) (features : Features.t)
      (self : AnomalyDetector.t) (d : Decision.t) :
  fst (AnomalyDetector.process_block block_index features self) = Ok d ->
  Decision.block_index d = block_index.
Proof.
  rewrite process_block_unfold. cbv zeta.
  destruct (_ <? _); [intros [= <-]; reflexivity|].
  destruct (negb _).
  - destruct (AnomalyDetector._compute_baseline _) as [[e|[]] self2];
      [discriminate|intros [= <-]; reflexivity].
  - destruct (AnomalyDetector.z_scores_loop _ _ _) as [e|zs]; [discriminate|].
    destruct (AnomalyDetector.anomalous_features _ _); intros [= <-]; reflexivity.
Qed.

Lemma iteration_good (r : Round) (st : State) :
  Good st ->
  iteration r st =
  match AnomalyDetector.process_block (index (next_block st r)) (next_features st r)
                                      (detector st) with
  | (inl e, detector') =>
      (inl (DetectorError e),
       {| bc := {| Blockchain.chain := Blockchain.chain (bc st) ++ [next_block st r] |};
          detector := detector';
          previous_block := previous_block st |})
  | (inr decision, detector') =>
      (inr (report_of st r decision detector'), next_state st r detector')
  end.
Proof.
  intros (first & rest & Hc & Hp & _).
  unfold Experiment.iteration.
  rewrite (add_block_nonempty sha256_json (now r) (txs r) (bc st) first rest Hc).
  rewrite <- Hp. reflexivity.
Qed.

Lemma next_state_good (r : Round) (st : State) (detector' : AnomalyDetector.t) :
  Good st -> Good (next_state st r detector').
Proof.
  intros (first & rest & Hc & Hp & Hl).
  exists first, (rest ++ [next_block st r]). cbn [Experiment.next_state bc previous_block Blockchain.chain].
  split; [now rewrite Hc|]. split.
  - now rewrite last_last.
  - apply linked_app. split; [exact Hl|]. split; [reflexivity|].
    cbn. now rewrite Hp.
Qed.

Lemma start_good (genesis_now : Float.float) (baseline_size : Z) :
  Good (start genesis_now baseline_size).
Proof.
  exists (new_block sha256_json 0 genesis_now [] "0"), [].
  repeat split.
Qed.

Lemma loop_cons (r : Round) (rest : list Round) (st : State) :
  Good st ->
  loop (r :: rest) st =
  match AnomalyDetector.process_block (index (next_block st r)) (next_features st r)
                                      (detector st) with
  | (inl e, detector') =>
      ([], Some (DetectorError e),
       {| bc := {| Blockchain.chain := Blockchain.chain (bc st) ++ [next_block st r] |};
          detector := detector';
          previous_block := previous_block st |})
  | (inr decision, detector') =>
      (report_of st r decision detector'
         :: fst (fst (loop rest (next_state st r detector'))),
       snd (fst (loop rest (next_state st r detector'))),
       snd (loop rest (next_state st r detector')))
  end.
Proof.
  intros HG. cbn [Experiment.loop]. rewrite (iteration_good r st HG).
  destruct (AnomalyDetector.process_block _ _ _) as [[e|d] detector'];
    [reflexivity|].
  destruct (Experiment.loop sha256_json rest _) as [[reports f] st'']. reflexivity.
Qed.

(** What each report holds, for a loop started in a good state. *)
Lemma loop_reports (rounds : list Round) :
  forall st, Good st ->
  forall j report,
    nth_error (fst (fst (loop rounds st))) j = Some report ->
    exists r prev,
      nth_error rounds j = Some r
      /\ nth_error (previous_block st :: map block (fst (fst (loop rounds st)))) j
         = Some prev
      /\ block report
         = new_block sha256_json
             (Z.of_nat (List.length (Blockchain.chain (bc st)) + j))
             (now r) (txs r) (hash prev)
      /\ features report
         = AnomalyDetector.extract_features (block report) (Some prev)
      /\ Decision.block_index (decision report) = index (block report)
      /\ rule_decision report
         = RuleBasedSecurityChecker.check_rules rule_checker (features report)
      /\ label report = is_anomalous_block r.
Proof.
  induction rounds as [|r rounds IH]; intros st HG j report Hj.
  - destruct j; discriminate Hj.
  - rewrite (loop_cons r rounds st HG) in Hj |- *.
    destruct (AnomalyDetector.process_block _ _ _) as [[e|d] detector'] eqn:E;
      cbn [fst snd] in *.
    + destruct j; discriminate Hj.
    + destruct j as [|j].
      * injection Hj as <-. exists r, (previous_block st).
        rewrite Nat.add_0_r. repeat split.
        apply (process_block_index (index (next_block st r)) (next_features st r)
                                   (detector st)).
        now rewrite E.
      * cbn [nth_error] in Hj.
        destruct (IH (next_state st r detector') (next_state_good r st detector' HG)
                     j report Hj)
          as (r' & prev & Hr & Hprev & Hb & Hf & Hd & Hrule & Hlabel).
        exists r', prev. cbn [nth_error map].
        split; [exact Hr|]. split; [exact Hprev|].
        split; [|repeat split; assumption].
        rewrite Hb. cbn [Experiment.next_state bc Blockchain.chain].
        rewrite length_app. cbn [List.length].
        replace (List.length (Blockchain.chain (bc st)) + 1 + j)%nat
          with (List.length (Blockchain.chain (bc st)) + S j)%nat by lia.
        reflexivity.
Qed.

(** The chain at the end of a loop that was not stopped, and what can
    stop it. *)
Lemma loop_chain (rounds : list Round) :
  forall st, Good st ->
    snd (fst (loop rounds st)) <> Some ChainIndexError
    /\ (snd (fst (loop rounds st)) = None ->
        Good (snd (loop rounds st))
        /\ Blockchain.chain (bc (snd (loop rounds st)))
           = Blockchain.chain (bc st) ++ map block (fst (fst (loop rounds st)))
        /\ List.length (fst (fst (loop rounds st))) = List.length rounds).
Proof.
  induction rounds as [|r rounds IH]; intros st HG.
  - cbn. split; [discriminate|]. intros _. rewrite app_nil_r. auto.
  - rewrite (loop_cons r rounds st HG).
    destruct (AnomalyDetector.process_block _ _ _) as [[e|d] detector'];
      cbn [fst snd].
    + split; discriminate.
    + destruct (IH (next_state st r detector') (next_state_good r st detector' HG))
        as [Hne Hnone].
      split; [exact Hne|]. intros Hf. destruct (Hnone Hf) as (HG' & Hc & Hlen).
      split; [exact HG'|]. split.
      * rewrite Hc. cbn [Experiment.next_state bc Blockchain.chain map].
        rewrite <- app_assoc. reflexivity.
      * cbn [List.length]. now rewrite Hlen.
Qed.

(** The decisions of the loop are those of the detector run on the calls
    behind the reports. *)
Lemma loop_detector (rounds : list Round) :
  forall st, Good st ->
    fst (Run.run (calls_of (fst (fst (loop rounds st)))) (detector st))
    = map (fun report => Ok (decision report)) (fst (fst (loop rounds st)))
    /\ (forall j report,
          nth_error (fst (fst (loop rounds st))) j = Some report ->
          baseline_ready report
          = AnomalyDetector.baseline_ready
              (snd (Run.run (firstn (S j) (calls_of (fst (fst (loop rounds st)))))
                            (detector st))))
    /\ (snd (fst (loop rounds st)) = None ->
        detector (snd (loop rounds st))
        = snd (Run.run (calls_of (fst (fst (loop rounds st)))) (detector st))).
Proof.
  induction rounds as [|r rounds IH]; intros st HG.
  - cbn. split; [reflexivity|]. split; [|reflexivity].
    intros j report H. destruct j; discriminate H.
  - rewrite (loop_cons r rounds st HG).
    destruct (AnomalyDetector.process_block _ _ _) as [[e|d] detector'] eqn:E;
      cbn [fst snd].
    + cbn. split; [reflexivity|]. split; [|discriminate].
      intros j report H. destruct j; discriminate H.
    + destruct (IH (next_state st r detector') (next_state_good r st detector' HG))
        as (Hrun & Hready & Hdet).
      cbn [Experiment.next_state detector] in Hrun, Hready, Hdet.
      unfold calls_of in *. cbn [map firstn].
      assert (Hcall : (index (block (report_of st r d detector')),
                       features (report_of st r d detector'))
                      = (index (next_block st r), next_features st r))
        by reflexivity.
      rewrite Hcall. split; [|split].
      * rewrite run_cons. cbn [fst snd]. rewrite E. cbn [fst snd].
        now rewrite Hrun.
      * intros [|j] report Hj.
        -- injection Hj as <-. cbn [firstn]. rewrite run_cons. cbn [fst snd Run.run].
           rewrite E. reflexivity.
        -- cbn [nth_error] in Hj. rewrite run_cons. cbn [fst snd].
           rewrite E. cbn [snd]. now apply Hready.
      * intros Hf. rewrite run_cons. cbn [fst snd]. rewrite E. cbn [snd].
        now apply Hdet.
Qed.

Lemma run_experiment_unfold (genesis_now : Float.float) (baseline_size : Z)
      (rounds : list Round) :
  run_experiment genesis_now baseline_size rounds =
  {| reports := fst (fst (loop rounds (start genesis_now baseline_size)));
     failure := snd (fst (loop rounds (start genesis_now baseline_size)));
     final_validity :=
       match snd (fst (loop rounds (start genesis_now baseline_size))) with
       | None => Some (Blockchain.is_chain_valid sha256_json
                         (bc (snd (loop rounds (start genesis_now baseline_size)))))
       | Some _ => None
       end;
     final_state := Some (snd (loop rounds (start genesis_now baseline_size))) |}.
Proof.
  unfold Experiment.run_experiment. cbn [Blockchain.last_block Blockchain.init
    Blockchain.create_genesis_block Blockchain.chain app List.last].
  fold (start genesis_now baseline_size).
  destruct (Experiment.loop sha256_json rounds _) as [[reports f] st]. reflexivity.
Qed.

(** Block after block.  The report of iteration [j] (from 1) is about the
    block with index [j], made from that iteration's transactions and
    clock reading and linked to the block reported before it, or to the
    genesis block.  Its features always come from [extract_features] with
    that predecessor, so [time_delta] is the difference of two clock
    readings and never the default of a missing predecessor; the decision
    carries the index [j], and the rule check was made on the same
    features. *)
Theorem experiment_reports_follow_the_chain
        (genesis_now : Float.float) (baseline_size : Z) (rounds : list Round)
        (j : nat) (report : Report) :
  let outcome := run_experiment genesis_now baseline_size rounds in
  nth_error (reports outcome) j = Some report ->
  exists r prev,
    nth_error rounds j = Some r
    /\ nth_error (new_block sha256_json 0 genesis_now [] "0"
                    :: map block (reports outcome)) j = Some prev
    /\ block report
       = new_block sha256_json (Z.of_nat (S j)) (now r) (txs r) (hash prev)
    /\ features report
       = AnomalyDetector.extract_features (block report) (Some prev)
    /\ Features.time_delta (features report) = Float.sub (now r) (timestamp prev)
    /\ Decision.block_index (decision report) = Z.of_nat (S j)
    /\ rule_decision report
       = RuleBasedSecurityChecker.check_rules rule_checker (features report)
    /\ label report = is_anomalous_block r.
Proof.
  cbv zeta. rewrite run_experiment_unfold. cbn [reports]. intros Hj.
  destruct (loop_reports rounds (start genesis_now baseline_size)
              (start_good genesis_now baseline_size) j report Hj)
    as (r & prev & Hr & Hprev & Hb & Hf & Hd & Hrule & Hlabel).
  exists r, prev.
  split; [exact Hr|]. split; [exact Hprev|].
  split; [exact Hb|]. split; [exact Hf|].
  split; [rewrite Hf, Hb; reflexivity|].
  split; [rewrite Hd, Hb; reflexivity|]. split; assumption.
Qed.

(** The loop is never stopped by the chain, only by an exception out of
    [process_block]; when nothing is raised there is one report per round
    and the final validity check prints nothing and gives [True]. *)
Theorem experiment_ends_with_valid_chain
        (genesis_now : Float.float) (baseline_size : Z) (rounds : list Round) :
  let outcome := run_experiment genesis_now baseline_size rounds in
  failure outcome <> Some ChainIndexError
  /\ (failure outcome = None ->
      final_validity outcome = Some (true, [])
      /\ List.length (reports outcome) = List.length rounds).
Proof.
  cbv zeta. rewrite run_experiment_unfold. cbn [reports failure final_validity].
  destruct (loop_chain rounds (start genesis_now baseline_size)
              (start_good genesis_now baseline_size)) as [Hne Hnone].
  split; [exact Hne|]. intros Hf. destruct (Hnone Hf) as (HG & _ & Hlen).
  rewrite Hf. split; [|exact Hlen].
  destruct HG as (first & rest & Hc & _ & Hl).
  unfold Blockchain.is_chain_valid. rewrite Hc. f_equal.
  now apply check_from_linked.
Qed.

End ExperimentProperties.

(** ** Runs in which every call returns *)

Section RunsReturned.

Import AnomalyDetector Run.

Variable bs : Z.
Variable thr : Float.float.
Hypothesis bs_positive : 1 <= bs.

Lemma run_snoc (calls : list call) (c : call) (self : t) :
  run (calls ++ [c]) self =
  (fst (run calls self)
     ++ [fst (process_block (fst c) (snd c) (snd (run calls self)))],
   snd (process_block (fst c) (snd c) (snd (run calls self)))).
Proof. rewrite run_app, run_cons. reflexivity. Qed.

Lemma run_returned_ready (calls : list call) :
  Forall returned (fst (run calls (init bs thr))) ->
  baseline_ready (snd (run calls (init bs thr)))
  = (bs <=? Z.of_nat (List.length calls)).
Proof.
  induction calls as [|c calls IH] using rev_ind; intros Hret.
  - cbn. symmetry. apply Z.leb_gt. lia.
  - rewrite run_snoc in Hret |- *. cbn [fst snd] in *.
    apply Forall_app in Hret. destruct Hret as [Hprev Hlast].
    apply Forall_inv in Hlast. specialize (IH Hprev).
    pose proof (run_fresh_length calls bs thr) as Hlen.
    pose proof (run_fresh_size calls bs thr) as Fb.
    set (s := snd (run calls (init bs thr))) in *.
    rewrite length_app. cbn [List.length].
    destruct (Z.leb_spec bs (Z.of_nat (List.length calls))) as [Hge|Hlt].
    + (* scoring *)
      rewrite step_scoring_state by (try exact IH; rewrite Hlen, Fb; lia).
      change (baseline_ready (appended s (snd c))) with (baseline_ready s).
      rewrite IH. symmetry. apply Z.leb_le. lia.
    + destruct (Z.ltb_spec (Z.of_nat (List.length calls) + 1) bs) as [Hc|Hb].
      * (* collecting *)
        rewrite step_collecting by (unfold Collecting; rewrite Hlen, Fb; lia).
        cbn [snd]. change (baseline_ready (appended s (snd c))) with (baseline_ready s).
        rewrite IH. symmetry. apply Z.leb_gt. lia.
      * (* the baseline call *)
        destruct (step_baseline_cases (fst c) (snd c) s)
          as [(self' & E & Hr)|(e & self' & k & E & _ & _)];
          [rewrite Hlen, Fb; lia|exact IH| |].
        -- rewrite E. cbn [snd]. rewrite Hr. symmetry. apply Z.leb_le. lia.
        -- rewrite E in Hlast. destruct Hlast as [d Hd]. discriminate Hd.
Qed.

Lemma run_returned_prefix (l1 l2 : list call) (self : t) :
  Forall returned (fst (run (l1 ++ l2) self)) -> Forall returned (fst (run l1 self)).
Proof. rewrite run_app. cbn [fst]. intros H. now apply Forall_app in H. Qed.

(** In a run on a fresh detector in which every call returns: the
    baseline is ready after call [j] exactly when [j] has reached
    [baseline_size]; the calls before that one return "Not enough data for
    baseline", and that one returns "Baseline just computed; no detection
    yet". *)
Lemma run_returned_nth (calls : list call) (j : nat) (c : call) :
  Forall returned (fst (run calls (init bs thr))) ->
  nth_error calls j = Some c ->
  baseline_ready (snd (run (firstn (S j) calls) (init bs thr)))
  = (bs <=? Z.of_nat (S j))
  /\ (Z.of_nat (S j) < bs ->
      nth_error (fst (run calls (init bs thr))) j
      = Some (Ok (early_decision (fst c) "Not enough data for baseline")))
  /\ (Z.of_nat (S j) = bs ->
      nth_error (fst (run calls (init bs thr))) j
      = Some (Ok (early_decision (fst c)
                                 "Baseline just computed; no detection yet"))).
Proof.
  intros Hret Hj.
  destruct (nth_error_split calls j Hj) as (l1 & l2 & -> & Hl1).
  assert (Hfirst : firstn (S j) (l1 ++ c :: l2) = l1 ++ [c]).
  { rewrite firstn_app, firstn_all2 by lia.
    replace (S j - List.length l1)%nat with 1%nat by lia. reflexivity. }
  replace (l1 ++ c :: l2) with ((l1 ++ [c]) ++ l2) in Hret
    by (rewrite <- app_assoc; reflexivity).
  apply run_returned_prefix in Hret.
  split.
  - rewrite Hfirst, (run_returned_ready _ Hret), length_app. cbn [List.length].
    now rewrite Hl1, Nat.add_1_r.
  - assert (Hnth : nth_error (fst (run (l1 ++ c :: l2) (init bs thr))) j
                   = Some (fst (process_block (fst c) (snd c)
                                              (snd (run l1 (init bs thr)))))).
    { rewrite run_app, run_cons. cbn [fst snd].
      rewrite nth_error_app2 by (rewrite run_outcomes_length; lia).
      now rewrite run_outcomes_length, Hl1, Nat.sub_diag. }
    rewrite Hnth.
    pose proof (run_fresh_length l1 bs thr) as Hlen.
    pose proof (run_fresh_size l1 bs thr) as Fb.
    pose proof (run_returned_ready l1 (run_returned_prefix l1 [c] _ Hret)) as Hready.
    rewrite run_snoc in Hret. cbn [fst] in Hret.
    apply Forall_app in Hret. destruct Hret as [_ Hlast]. apply Forall_inv in Hlast.
    set (s := snd (run l1 (init bs thr))) in *.
    split; intros Hcase.
    + rewrite step_collecting by (unfold Collecting; rewrite Hlen, Fb; lia).
      reflexivity.
    + destruct (step_baseline_cases (fst c) (snd c) s)
        as [(self' & E & _)|(e & self' & k & E & _ & _)].
      * rewrite Hlen, Fb. lia.
      * rewrite Hready. apply Z.leb_gt. lia.
      * now rewrite E.
      * rewrite E in Hlast. destruct Hlast as [d Hd]. discriminate Hd.
Qed.

End RunsReturned.

(** ** The detector inside the simulation loop *)

Section ExperimentBaseline.

Import Experiment.

Variable sha256_json : Z -> Float.float -> list Transaction -> string -> Z -> string.

Local Abbreviation run_experiment := (run_experiment sha256_json).

(** The decisions reported by [run_experiment] are the outcomes of the
    calls [process_block(j, features_j)] made in order on a fresh detector with
    threshold 1.5, the genesis block being fed to no call; the
    [baseline_ready] printed for block [j] is the flag after call [j].  When
    nothing is raised, the detector that [run_experiment] holds at the end
    is the fresh detector after exactly those calls, and its histories are
    the reported features. *)
Theorem experiment_decisions_are_a_detector_run
        (genesis_now : Float.float) (baseline_size : Z) (rounds : list Round) :
  let outcome := run_experiment genesis_now baseline_size rounds in
  let fresh := AnomalyDetector.init baseline_size (Float.decimal 15 1) in
  fst (Run.run (calls_of (reports outcome)) fresh)
  = map (fun report => Ok (decision report)) (reports outcome)
  /\ (forall j report,
        nth_error (reports outcome) j = Some report ->
        baseline_ready report
        = AnomalyDetector.baseline_ready
            (snd (Run.run (firstn (S j) (calls_of (reports outcome))) fresh)))
  /\ (failure outcome = None ->
      exists st,
        final_state outcome = Some st
        /\ detector st = snd (Run.run (calls_of (reports outcome)) fresh)
        /\ forall k,
             AnomalyDetector.history (detector st) k
             = Run.column k (map features (reports outcome))).
Proof.
  cbv zeta. rewrite run_experiment_unfold. cbn [reports failure final_state].
  destruct (loop_detector sha256_json rounds (start sha256_json genesis_now baseline_size)
              (start_good sha256_json genesis_now baseline_size))
    as (Hrun & Hready & Hdet).
  cbn [Experiment.start detector] in Hrun, Hready, Hdet.
  split; [exact Hrun|]. split; [exact Hready|].
  intros Hf. eexists. split; [reflexivity|]. split; [exact (Hdet Hf)|].
  intros k. rewrite (Hdet Hf), run_fresh_history. unfold calls_of, Run.column.
  rewrite !map_map. reflexivity.
Qed.

(** With [baseline_size >= 1], the report of block [j] shows
    [baseline_ready] true exactly when [j >= baseline_size]; the blocks
    before block [baseline_size] are reported with "Not enough data for
    baseline" and block [baseline_size] with "Baseline just computed; no
    detection yet", neither flagged. *)
Theorem experiment_baseline_is_ready_from_block_baseline_size
        (genesis_now : Float.float) (baseline_size : Z) (rounds : list Round)
        (j : nat) (report : Report) :
  1 <= baseline_size ->
  nth_error (reports (run_experiment genesis_now baseline_size rounds)) j
  = Some report ->
  baseline_ready report = (baseline_size <=? Z.of_nat (S j))
  /\ (Z.of_nat (S j) < baseline_size ->
      decision report
      = Run.early_decision (Z.of_nat (S j)) "Not enough data for baseline")
  /\ (Z.of_nat (S j) = baseline_size ->
      decision report
      = Run.early_decision (Z.of_nat (S j))
                           "Baseline just computed; no detection yet").
Proof.
  intros Hbs. rewrite run_experiment_unfold. cbn [reports]. intros Hj.
  destruct (loop_detector sha256_json rounds (start sha256_json genesis_now baseline_size)
              (start_good sha256_json genesis_now baseline_size))
    as (Hrun & Hready & _).
  destruct (loop_reports sha256_json rounds (start sha256_json genesis_now baseline_size)
              (start_good sha256_json genesis_now baseline_size) j report Hj)
    as (r & prev & _ & _ & Hb & _ & _).
  cbn [Experiment.start detector bc Blockchain.init Blockchain.create_genesis_block
       Blockchain.chain app List.length] in Hrun, Hready, Hb.
  set (reps := fst (fst (Experiment.loop sha256_json rounds
                           (start sha256_json genesis_now baseline_size)))) in *.
  assert (Hret : Forall Run.returned
                   (fst (Run.run (calls_of reps)
                                 (AnomalyDetector.init baseline_size z_threshold)))).
  { rewrite Hrun. apply Forall_forall. intros x Hx. apply in_map_iff in Hx.
    destruct Hx as (rep & <- & _). now exists (decision rep). }
  assert (Hcall : nth_error (calls_of reps) j
                  = Some (index (block report), features report)).
  { unfold calls_of. now rewrite nth_error_map, Hj. }
  assert (Hidx : index (block report) = Z.of_nat (S j)) by (rewrite Hb; reflexivity).
  destruct (run_returned_nth baseline_size z_threshold Hbs (calls_of reps) j
              (index (block report), features report) Hret Hcall)
    as (Hr & Hcollect & Hbase).
  assert (Hdec : nth_error (fst (Run.run (calls_of reps)
                                        (AnomalyDetector.init baseline_size z_threshold)))
                           j = Some (Ok (decision report))).
  { rewrite Hrun, nth_error_map, Hj. reflexivity. }
  cbn [fst] in Hcollect, Hbase. rewrite Hidx in Hcollect, Hbase.
  split; [rewrite (Hready j report Hj); exact Hr|]. split; intros Hcase.
  - specialize (Hcollect Hcase). rewrite Hdec in Hcollect.
    now injection Hcollect.
  - specialize (Hbase Hcase). rewrite Hdec in Hbase. now injection Hbase.
Qed.

End ExperimentBaseline.

(** ** More concrete instances *)

Section MoreInstances.

Import AnomalyDetector Run Scenario ChainExample Examples.

Lemma is_chain_valid_reports_first_failure_witness :
  fst (Blockchain.is_chain_valid toy_digest
         {| Blockchain.chain := [genesis; forged_first; second] |}) = false
  /\ exists i p c,
       nth_error [genesis; forged_first; second] i = Some p
       /\ nth_error [genesis; forged_first; second] (S i) = Some c.
Proof.
  assert (H : fst (Blockchain.is_chain_valid toy_digest
                     {| Blockchain.chain := [genesis; forged_first; second] |})
              = false) by reflexivity.
  split; [exact H|].
  destruct (is_chain_valid_reports_first_failure toy_digest _ H)
    as (i & p & c & Hp & Hc & _).
  exists i, p, c. split; assumption.
Defined.

Lemma first_block_contents_are_not_checked_witness :
  hash forged_genesis = hash genesis
  /\ fst (Blockchain.is_chain_valid toy_digest
            {| Blockchain.chain := [forged_genesis; first; second] |})
     = fst (Blockchain.is_chain_valid toy_digest example_chain).
Proof.
  split; [reflexivity|].
  apply (first_block_contents_are_not_checked toy_digest genesis forged_genesis
           [first; second]).
  reflexivity.
Defined.

Lemma rewritten_last_block_passes_witness :
  [genesis; first] <> []
  /\ fst (Blockchain.is_chain_valid toy_digest
            {| Blockchain.chain := [genesis; first] ++ [second] |}) = true
  /\ Blockchain.is_chain_valid toy_digest
       {| Blockchain.chain :=
            [genesis; first]
              ++ [new_block toy_digest 7 (Float.of_Z 0) [payment 1000]
                            (previous_hash second)] |}
     = (true, []).
Proof.
  assert (H1 : [genesis; first] <> []) by discriminate.
  assert (H2 : fst (Blockchain.is_chain_valid toy_digest
                      {| Blockchain.chain := [genesis; first] ++ [second] |}) = true)
    by reflexivity.
  split; [exact H1|]. split; [exact H2|].
  exact (rewritten_last_block_passes toy_digest [genesis; first] second
           7 (Float.of_Z 0) [payment 1000] H1 H2).
Defined.

Lemma tampering_is_detected_witness :
  fst (Blockchain.is_chain_valid toy_digest
         {| Blockchain.chain := [genesis] ++ first :: [second] |}) = true
  /\ [genesis] <> []
  /\ hash forged_first <> compute_hash toy_digest forged_first
  /\ fst (Blockchain.is_chain_valid toy_digest
            {| Blockchain.chain := [genesis] ++ forged_first :: [second] |}) = false.
Proof.
  assert (H1 : fst (Blockchain.is_chain_valid toy_digest
                      {| Blockchain.chain := [genesis] ++ first :: [second] |}) = true)
    by reflexivity.
  assert (H2 : [genesis] <> []) by discriminate.
  assert (H3 : hash forged_first <> compute_hash toy_digest forged_first)
    by (vm_compute; discriminate).
  split; [exact H1|]. split; [exact H2|]. split; [exact H3|].
  exact (proj1 (tampering_is_detected toy_digest [genesis] [second] first forged_first H1)
               H2 H3).
Defined.

Lemma nan_never_violates_a_rule_witness :
  (Features.max_amount nan_amount = S754_nan
   \/ RuleBasedSecurityChecker.max_single_tx_amount RuleBasedSecurityChecker.default
      = S754_nan)
  /\ has_rule 1 (RuleDecision.violations
                   (RuleBasedSecurityChecker.check_rules
                      RuleBasedSecurityChecker.default nan_amount)) = false.
Proof.
  assert (H : Features.max_amount nan_amount = S754_nan
              \/ RuleBasedSecurityChecker.max_single_tx_amount
                   RuleBasedSecurityChecker.default = S754_nan)
    by (left; reflexivity).
  split; [exact H|].
  exact (proj1 (nan_never_violates_a_rule RuleBasedSecurityChecker.default nan_amount) H).
Defined.

Lemma looser_thresholds_record_fewer_violations_witness :
  Float.leb (RuleBasedSecurityChecker.max_single_tx_amount
               RuleBasedSecurityChecker.default)
            (RuleBasedSecurityChecker.max_single_tx_amount loose) = true
  /\ Float.leb (RuleBasedSecurityChecker.max_block_total_amount
                  RuleBasedSecurityChecker.default)
               (RuleBasedSecurityChecker.max_block_total_amount loose) = true
  /\ Float.leb (RuleBasedSecurityChecker.min_time_delta loose)
               (RuleBasedSecurityChecker.min_time_delta
                  RuleBasedSecurityChecker.default) = true
  /\ (RuleDecision.rule_alert
        (RuleBasedSecurityChecker.check_rules loose (features 1 7000 3500 1)) = true ->
      RuleDecision.rule_alert
        (RuleBasedSecurityChecker.check_rules RuleBasedSecurityChecker.default
           (features 1 7000 3500 1)) = true).
Proof.
  split; [reflexivity|]. split; [reflexivity|]. split; [reflexivity|].
  apply (looser_thresholds_record_fewer_violations
           RuleBasedSecurityChecker.default loose (features 1 7000 3500 1));
    reflexivity.
Defined.

Lemma equal_timestamps_escape_rule3_witness :
  Float.is_finite (timestamp same_tick) = true
  /\ timestamp genesis = timestamp same_tick
  /\ has_rule 3 (RuleDecision.violations
                   (RuleBasedSecurityChecker.check_rules
                      RuleBasedSecurityChecker.default
                      (extract_features same_tick (Some genesis)))) = false.
Proof.
  split; [reflexivity|]. split; [reflexivity|].
  apply (equal_timestamps_escape_rule3 RuleBasedSecurityChecker.default
           same_tick genesis); reflexivity.
Defined.

Lemma scoring_reason_names_exceeding_features_witness :
  Scoring (calibrated (Float.of_Z 3))
  /\ exists d,
       fst (process_block 4 (fourth 1) (calibrated (Float.of_Z 3))) = Ok d
       /\ Decision.block_index d = 4.
Proof.
  split; [apply calibrated_scoring|].
  destruct (scoring_reason_names_exceeding_features
              4 (fourth 1) (calibrated (Float.of_Z 3))
              (calibrated_scoring (Float.of_Z 3)))
    as (d & E & Hi & _).
  exists d. split; assumption.
Defined.

Lemma zero_std_feature_is_never_flagged_witness :
  Scoring (calibrated (Float.of_Z 3))
  /\ Stats.std (Stats.get (stats (calibrated (Float.of_Z 3))) Feature.num_txs)
     = Some Float.zero
  /\ Float.eqb Float.zero Float.zero = true
  /\ Float.ltb (z_threshold (calibrated (Float.of_Z 3))) Float.zero = false
  /\ exists d,
       fst (process_block 4 (features 9 10 5 1) (calibrated (Float.of_Z 3))) = Ok d
       /\ In (Feature.name Feature.num_txs, Float.zero) (Decision.feature_z_scores d).
Proof.
  assert (H2 : Stats.std (Stats.get (stats (calibrated (Float.of_Z 3))) Feature.num_txs)
               = Some Float.zero) by (vm_compute; reflexivity).
  assert (H3 : Float.eqb Float.zero Float.zero = true) by reflexivity.
  assert (H4 : Float.ltb (z_threshold (calibrated (Float.of_Z 3))) Float.zero = false)
    by (vm_compute; reflexivity).
  split; [apply calibrated_scoring|]. split; [exact H2|]. split; [exact H3|].
  split; [exact H4|].
  destruct (zero_std_feature_is_never_flagged
              4 (features 9 10 5 1) (calibrated (Float.of_Z 3)) Feature.num_txs
              Float.zero (calibrated_scoring (Float.of_Z 3)) H2 H3 H4)
    as (d & E & Hin & _).
  exists d. split; assumption.
Defined.

Lemma nan_is_never_flagged_witness :
  Scoring (calibrated S754_nan)
  /\ exists d,
       fst (process_block 4 (features 900 10 5 1) (calibrated S754_nan)) = Ok d
       /\ Decision.is_anomaly d = false.
Proof.
  split; [apply calibrated_scoring|].
  destruct (nan_is_never_flagged 4 (features 900 10 5 1) (calibrated S754_nan)
              (calibrated_scoring S754_nan))
    as (d & E & Hnan & _).
  exists d. split; [exact E|]. apply Hnan. vm_compute. reflexivity.
Defined.

Lemma poisoned_is_poisoned : Poisoned poisoned.
Proof.
  split; [vm_compute; reflexivity|]. split; [vm_compute; discriminate|].
  exists Feature.time_delta. vm_compute. reflexivity.
Qed.

Lemma failed_baseline_is_retried_witness :
  baseline_ready poisoned = false
  /\ baseline_size poisoned <= Z.of_nat (List.length (num_txs_history poisoned)) + 1
  /\ fst (process_block 2 (fourth 1) poisoned) = Raise AttributeError
  /\ baseline_ready (snd (process_block 2 (fourth 1) poisoned)) = false.
Proof.
  assert (H1 : baseline_ready poisoned = false) by (vm_compute; reflexivity).
  assert (H2 : baseline_size poisoned
               <= Z.of_nat (List.length (num_txs_history poisoned)) + 1)
    by (vm_compute; discriminate).
  assert (H3 : fst (process_block 2 (fourth 1) poisoned) = Raise AttributeError)
    by (vm_compute; reflexivity).
  split; [exact H1|]. split; [exact H2|]. split; [exact H3|].
  exact (proj1 (proj2 (failed_baseline_is_retried 2 (fourth 1) poisoned
                         AttributeError H1 H2 H3))).
Defined.

Lemma non_finite_history_raises_forever_witness :
  Poisoned poisoned
  /\ Forall raised (fst (run [(2, fourth 1); (3, fourth 1)] poisoned)).
Proof.
  split; [exact poisoned_is_poisoned|].
  exact (proj1 (non_finite_history_raises_forever
                  [(2, fourth 1); (3, fourth 1)] poisoned poisoned_is_poisoned)).
Defined.

Lemma compute_baseline_on_empty_history_witness :
  num_txs_history (init 3 (Float.of_Z 3)) = []
  /\ _compute_baseline (init 3 (Float.of_Z 3))
     = (Raise StatisticsError, init 3 (Float.of_Z 3)).
Proof.
  split; [reflexivity|].
  apply (compute_baseline_on_empty_history (init 3 (Float.of_Z 3))). reflexivity.
Defined.

Lemma single_sample_baseline_never_flags_witness :
  1 <= 1
  /\ Float.ltb (Float.of_Z 3) Float.zero = false
  /\ (forall k, Statistics.mean [Features.get (snd (1, features 2 10 5 0)) k]
                = Ok (Features.get (features 2 10 5 0) k))
  /\ Forall not_flagged
       (fst (run ((1, features 2 10 5 0) :: [(2, features 900 9000 5000 1)])
                 (init 1 (Float.of_Z 3)))).
Proof.
  assert (H1 : 1 <= 1) by discriminate.
  assert (H2 : Float.ltb (Float.of_Z 3) Float.zero = false) by reflexivity.
  assert (H3 : forall k, Statistics.mean [Features.get (snd (1, features 2 10 5 0)) k]
                         = Ok (Features.get (features 2 10 5 0) k))
    by (intros []; vm_compute; reflexivity).
  split; [exact H1|]. split; [exact H2|]. split; [exact H3|].
  exact (proj1 (single_sample_baseline_never_flags
                  1 (Float.of_Z 3) [(2, features 900 9000 5000 1)]
                  (1, features 2 10 5 0)
                  (fun k => Features.get (features 2 10 5 0) k) H1 H2 H3)).
Defined.

Lemma experiment_reports_follow_the_chain_witness :
  exists report,
    nth_error (Experiment.reports outcome) 1 = Some report
    /\ Decision.block_index (Experiment.decision report) = 2.
Proof.
  destruct (nth_error (Experiment.reports outcome) 1) as [report|] eqn:E.
  - exists report. split; [reflexivity|].
    destruct (experiment_reports_follow_the_chain
                toy_digest (Float.of_Z 100) 2 rounds 1 report E)
      as (r & prev & _ & _ & _ & _ & _ & Hd & _).
    exact Hd.
  - vm_compute in E. discriminate E.
Defined.

Lemma experiment_ends_with_valid_chain_witness :
  Experiment.failure outcome = None
  /\ Experiment.final_validity outcome = Some (true, []).
Proof.
  assert (H : Experiment.failure outcome = None) by (vm_compute; reflexivity).
  split; [exact H|].
  exact (proj1 (proj2 (experiment_ends_with_valid_chain
                         toy_digest (Float.of_Z 100) 2 rounds) H)).
Defined.

Lemma experiment_baseline_is_ready_from_block_baseline_size_witness :
  1 <= 2
  /\ exists report,
       nth_error (Experiment.reports outcome) 1 = Some report
       /\ Experiment.baseline_ready report = true.
Proof.
  assert (H1 : 1 <= 2) by discriminate.
  split; [exact H1|].
  destruct (nth_error (Experiment.reports outcome) 1) as [report|] eqn:E.
  - exists report. split; [reflexivity|].
    exact (proj1 (experiment_baseline_is_ready_from_block_baseline_size
                    toy_digest (Float.of_Z 100) 2 rounds 1 report H1 E)).
  - vm_compute in E. discriminate E.
Defined.

End MoreInstances.

(** ** A baseline call that raises *)

Section BaselineOverflow.

Import AnomalyDetector Run Examples.

(** C1 as stated fails on finite features.  With [baseline_size = 2] and
    time_delta values 1.7e308 and -1.7e308, the call that brings the
    history to length 2 raises [OverflowError] out of [stdev]: it returns no
    decision, leaves [baseline_ready] false, and has stored the pairs of
    num_txs, total_amount and max_amount but not of time_delta.  The third
    call computes the baseline over three values, and the num_txs pair it
    stores is not the one stored before. *)
Lemma baseline_call_can_raise_and_be_recomputed :
  all_finite overflow_calls = true
  /\ nth_error (fst (run overflow_calls (init 2 (Float.of_Z 3)))) 1
     = Some (Raise OverflowError)
  /\ baseline_ready (state_after 2 (Float.of_Z 3) overflow_calls 2) = false
  /\ Stats.num_txs (stats (state_after 2 (Float.of_Z 3) overflow_calls 2))
     = {| Stats.mean := Some (Float.of_Z 2); Stats.std := Some Float.zero |}
  /\ Stats.time_delta (stats (state_after 2 (Float.of_Z 3) overflow_calls 2))
     = Stats.undefined
  /\ baseline_ready (state_after 2 (Float.of_Z 3) overflow_calls 3) = true
  /\ Stats.num_txs (stats (state_after 2 (Float.of_Z 3) overflow_calls 3))
     = {| Stats.mean := Some (Float.of_Z 3);
          Stats.std := Some (S754_finite false 7800463371553962 (-52)) |}
  /\ Stats.num_txs (stats (state_after 2 (Float.of_Z 3) overflow_calls 3))
     <> Stats.num_txs (stats (state_after 2 (Float.of_Z 3) overflow_calls 2)).
Proof.
  repeat split; try (vm_compute; reflexivity). vm_compute. discriminate.
Qed.

Lemma experiment_decisions_are_a_detector_run_witness :
  Experiment.failure outcome = None
  /\ exists st,
       Experiment.final_state outcome = Some st
       /\ forall k,
            history (Experiment.detector st) k
            = column k (map Experiment.features (Experiment.reports outcome)).
Proof.
  assert (H : Experiment.failure outcome = None) by (vm_compute; reflexivity).
  split; [exact H|].
  destruct (proj2 (proj2 (experiment_decisions_are_a_detector_run
                            ChainExample.toy_digest (Float.of_Z 100) 2 rounds)) H)
    as (st & Hst & _ & Hh).
  exists st. split; assumption.
Defined.

End BaselineOverflow.
